(** * sol-cli [deploy] command: deployment sequencer and report builder

    Shallow embedding of [packages/sol-cli/cmd/deploy.js].

    The command is an [async] function that mutates the shared [args]
    object, talks to an RPC endpoint and writes to the console.  It is
    embedded as a state-and-exception monad over a [World] holding the
    [args] object and the chronological trace of observable events; the
    RPC endpoint is an arbitrary oracle whose answers may depend on
    everything that happened before. *)

From Stdlib Require Import ZArith List String Ascii Bool Lia DecimalString.
Import ListNotations.
Local Open Scope string_scope.
Local Open Scope Z_scope.

(** ** JavaScript values that flow through the command *)

Module Js.

(** A commander option value: the option's default (a number literal in
    the source) or the string typed on the command line. *)
Inductive scalar :=
| Num (n : Z)
| Str (s : string).

(** Values handed to a contract constructor or stored in the
    configuration object. *)
Inductive value :=
| Undefined
| Scalar (x : scalar)
| Big (n : Z)                 (* an ethers BigNumber *)
| Arr (xs : list string).     (* an array of strings; [Arr []] is [[]] *)

Definition decimal (n : Z) : string := NilZero.string_of_int (Z.to_int n).

(** [x.toString()], also the conversion done by a template literal. *)
Definition toString (x : scalar) : string :=
  match x with
  | Num n => decimal n
  | Str s => s
  end.

(** [`${xs}`] on an array: [xs.join(",")]. *)
Definition joinComma (xs : list string) : string := String.concat "," xs.

(** Truthiness of a string: every string but the empty one. *)
Definition truthy (s : string) : bool := negb (s =? "")%string.

(** Truthiness of a property that is [undefined] or a string. *)
Definition truthyOpt (o : option string) : bool :=
  match o with
  | None => false
  | Some s => truthy s
  end.

Definition isUndefined (v : value) : bool :=
  match v with
  | Undefined => true
  | _ => false
  end.

Definition ofOpt (o : option string) : value :=
  match o with
  | None => Undefined
  | Some s => Scalar (Str s)
  end.

Definition newline : string := String (ascii_of_nat 10) EmptyString.

End Js.
Import Js.

(** ** The data model *)

Inductive ContractKind :=
| Bridge
| Erc20Handler
| GenericHandler
| Erc20Mintable
| ChainAsset.

(** What commander and [setupParentArgs] leave on [args] and the command
    never assigns.  [setupParentArgs] is not part of the file; what it
    resolves ([url], [wallet], [gasPrice], [gasLimit]) is taken as given.
    [gasLimit] and [gasPrice] are BigNumbers: [createConfig] calls
    [toNumber()] on them. *)
Record Options := {
  chainId : scalar;
  relayers : list string;
  relayerThreshold : scalar;
  fee : scalar;
  expiry : scalar;
  all : bool;
  bridge : bool;
  erc20Handler : bool;
  genericHandler : bool;
  erc20 : bool;
  erc20Symbol : string;
  erc20Name : string;
  erc20Decimals : scalar;
  asset : bool;
  config : bool;
  url : string;
  wallet_address : string;
  gasPrice : Z;
  gasLimit : Z
}.

(** The [args] object.  [bridgeAddress] is the [--bridgeAddress] option
    (default [""]) until [deployBridgeContract] overwrites it; the other
    five properties do not exist ([undefined]) until assigned. *)
Record Args := {
  opts : Options;
  bridgeAddress : string;
  erc20HandlerContract : option string;
  genericHandlerContract : option string;
  erc20Contract : option string;
  ChainAssetContract : option string;
  cost : option Z
}.

(** [args] as commander hands it to the action. *)
Definition initArgs (o : Options) (bridgeAddressOption : string) : Args :=
  {| opts := o;
     bridgeAddress := bridgeAddressOption;
     erc20HandlerContract := None;
     genericHandlerContract := None;
     erc20Contract := None;
     ChainAssetContract := None;
     cost := None |}.

Definition set_bridgeAddress (v : string) (a : Args) : Args :=
  {| opts := opts a;
     bridgeAddress := v;
     erc20HandlerContract := erc20HandlerContract a;
     genericHandlerContract := genericHandlerContract a;
     erc20Contract := erc20Contract a;
     ChainAssetContract := ChainAssetContract a;
     cost := cost a |}.

Definition set_erc20HandlerContract (v : string) (a : Args) : Args :=
  {| opts := opts a;
     bridgeAddress := bridgeAddress a;
     erc20HandlerContract := Some v;
     genericHandlerContract := genericHandlerContract a;
     erc20Contract := erc20Contract a;
     ChainAssetContract := ChainAssetContract a;
     cost := cost a |}.

Definition set_genericHandlerContract (v : string) (a : Args) : Args :=
  {| opts := opts a;
     bridgeAddress := bridgeAddress a;
     erc20HandlerContract := erc20HandlerContract a;
     genericHandlerContract := Some v;
     erc20Contract := erc20Contract a;
     ChainAssetContract := ChainAssetContract a;
     cost := cost a |}.

Definition set_erc20Contract (v : string) (a : Args) : Args :=
  {| opts := opts a;
     bridgeAddress := bridgeAddress a;
     erc20HandlerContract := erc20HandlerContract a;
     genericHandlerContract := genericHandlerContract a;
     erc20Contract := Some v;
     ChainAssetContract := ChainAssetContract a;
     cost := cost a |}.

Definition set_ChainAssetContract (v : string) (a : Args) : Args :=
  {| opts := opts a;
     bridgeAddress := bridgeAddress a;
     erc20HandlerContract := erc20HandlerContract a;
     genericHandlerContract := genericHandlerContract a;
     erc20Contract := erc20Contract a;
     ChainAssetContract := Some v;
     cost := cost a |}.

Definition set_cost (v : Z) (a : Args) : Args :=
  {| opts := opts a;
     bridgeAddress := bridgeAddress a;
     erc20HandlerContract := erc20HandlerContract a;
     genericHandlerContract := genericHandlerContract a;
     erc20Contract := erc20Contract a;
     ChainAssetContract := ChainAssetContract a;
     cost := Some v |}.

(** ** Observable events *)

(** What [console.log] is given: a text, or the configuration document
    (the object [JSON.stringify] receives, without the properties whose
    value is [undefined], which [JSON.stringify] leaves out). *)
Inductive Output :=
| Text (s : string)
| Json (doc : list (string * value)).

(** One entry per network call with the endpoint's answer ([None] and
    [false] are a rejected promise), per console line and per assignment
    to a property of [args] (with [args] as it is after the assignment). *)
Inductive Event :=
| EGetBalance (address : string) (answer : option Z)
| EDeploy (kind : ContractKind) (ctor : list value) (gasPrice gasLimit : Z)
          (answer : option string)
| EDeployed (address : string) (answer : bool)
| ELog (out : Output)
| EAssign (after : Args).

Definition Trace := list Event.

(** The RPC endpoint behind [args.provider] and [args.wallet]. *)
Record Network := {
  (** [provider.getBalance(address)] *)
  net_getBalance : Trace -> string -> option Z;
  (** [factory.deploy(...ctor, {gasPrice, gasLimit})]: the address of the
      contract being created *)
  net_deploy : Trace -> ContractKind -> list value -> Z -> Z -> option string;
  (** [contract.deployed()]: the creation transaction was mined *)
  net_deployed : Trace -> string -> bool
}.

(** Helpers the file imports: [isValidAddress] from [./utils], and the
    [ethers.utils] conversions between ether decimals and wei. *)
Class Lib := {
  isValidAddress : string -> bool;
  (** [ethers.utils.parseEther]; [None] when it throws *)
  parseEther : string -> option Z;
  (** [ethers.utils.formatEther] *)
  formatEther : Z -> string
}.

Inductive Error :=
| NoTargetSpecified      (* Error("must specify --all or specific contracts to deploy") *)
| NetworkOrChainError    (* a rejected promise of the provider, factory or contract *)
| InvalidDecimal         (* thrown by parseEther *)
| InvalidBigNumber       (* thrown by formatEther on a value that is no BigNumber *)
| NumericOverflow.       (* thrown by BigNumber.toNumber *)

Inductive Outcome (A : Type) :=
| Ok (a : A)
| Throw (e : Error).
Arguments Ok {A} a.
Arguments Throw {A} e.

Record World := {
  args : Args;
  trace : Trace
}.

(** ** The monad of the command *)

Definition M (A : Type) : Type := World -> Outcome A * World.

Definition ret {A} (a : A) : M A := fun w => (Ok a, w).

Definition throw {A} (e : Error) : M A := fun w => (Throw e, w).

Definition bind {A B} (m : M A) (k : A -> M B) : M B :=
  fun w =>
    match m w with
    | (Ok a, w') => k a w'
    | (Throw e, w') => (Throw e, w')
    end.

Declare Scope cmd_scope.
Delimit Scope cmd_scope with cmd.
Notation "x <- m ;; k" := (bind m (fun x => k))
  (at level 61, m at next level, right associativity) : cmd_scope.
Notation "m ;; k" := (bind m (fun _ => k))
  (at level 61, right associativity) : cmd_scope.
Local Open Scope cmd_scope.

Definition emit (e : Event) (w : World) : World :=
  {| args := args w; trace := (trace w ++ [e])%list |}.

Definition getArgs : M Args := fun w => (Ok (args w), w).

Definition written (a : Args) (w : World) : World :=
  {| args := a; trace := (trace w ++ [EAssign a])%list |}.

(** [args.p = v] *)
Definition assign (f : Args -> Args) : M unit :=
  fun w => (Ok tt, written (f (args w)) w).

Definition console_log (out : Output) : M unit :=
  fun w => (Ok tt, emit (ELog out) w).

(** [BigNumber.prototype.toNumber] of ethers: the underlying BN.js number
    converts only when its magnitude fits 53 bits. *)
Definition toNumber (n : Z) : M Z :=
  if Z.abs n <? 2 ^ 53 then ret n else throw NumericOverflow.

(** [obj[k] = v] on an object kept as its properties in insertion order. *)
Fixpoint put (k : string) (v : value) (obj : list (string * value))
  : list (string * value) :=
  match obj with
  | [] => [(k, v)]
  | (k', v') :: rest =>
      if (k' =? k)%string then (k, v) :: rest else (k', v') :: put k v rest
  end.

Fixpoint get (k : string) (obj : list (string * value)) : option value :=
  match obj with
  | [] => None
  | (k', v) :: rest => if (k' =? k)%string then Some v else get k rest
  end.

Definition default {A} (d : A) (o : option A) : A :=
  match o with
  | Some x => x
  | None => d
  end.

(** [JSON.stringify(config, null, 4)]: the document keeps every property
    whose value is not [undefined]. *)
Definition JSON_stringify (config : list (string * value)) : Output :=
  Json (filter (fun kv => negb (isUndefined (snd kv))) config).

Section Command.

Context {lib : Lib}.
Variable net : Network.

(** [await args.provider.getBalance(address)] *)
Definition provider_getBalance (address : string) : M Z :=
  fun w =>
    let r := net_getBalance net (trace w) address in
    let w' := emit (EGetBalance address r) w in
    match r with
    | Some b => (Ok b, w')
    | None => (Throw NetworkOrChainError, w')
    end.

(** [await factory.deploy(...ctor, { gasPrice, gasLimit })], [factory]
    being the [ContractFactory] made of the ABI and bytecode of [kind]
    and of [args.wallet]; the result is [contract.address]. *)
Definition factory_deploy (kind : ContractKind) (ctor : list value)
           (gasPrice gasLimit : Z) : M string :=
  fun w =>
    let r := net_deploy net (trace w) kind ctor gasPrice gasLimit in
    let w' := emit (EDeploy kind ctor gasPrice gasLimit r) w in
    match r with
    | Some address => (Ok address, w')
    | None => (Throw NetworkOrChainError, w')
    end.

(** [await contract.deployed()] *)
Definition contract_deployed (address : string) : M unit :=
  fun w =>
    let r := net_deployed net (trace w) address in
    let w' := emit (EDeployed address r) w in
    if r then (Ok tt, w') else (Throw NetworkOrChainError, w').

(** [ethers.utils.parseEther(s)] *)
Definition ethers_parseEther (s : string) : M Z :=
  match parseEther s with
  | Some wei => ret wei
  | None => throw InvalidDecimal
  end.

(** deploy.js, lines 152-172. *)
Definition deployBridgeContract : M unit :=
  a <- getArgs ;;
  wei <- ethers_parseEther (toString (fee (opts a))) ;;
  contract <- factory_deploy Bridge
                [Scalar (chainId (opts a));
                 Arr (relayers (opts a));
                 Scalar (relayerThreshold (opts a));
                 Big wei;
                 Scalar (expiry (opts a))]
                (gasPrice (opts a)) (gasLimit (opts a)) ;;
  contract_deployed contract ;;
  assign (set_bridgeAddress contract) ;;
  console_log (Text "✓ Bridge contract deployed").

(** deploy.js, lines 174-189. *)
Definition deployERC20 : M unit :=
  a <- getArgs ;;
  contract <- factory_deploy Erc20Mintable
                [Scalar (Str (erc20Name (opts a)));
                 Scalar (Str (erc20Symbol (opts a)));
                 Scalar (erc20Decimals (opts a))]
                (gasPrice (opts a)) (gasLimit (opts a)) ;;
  contract_deployed contract ;;
  assign (set_erc20Contract contract) ;;
  console_log (Text "✓ ERC20 contract deployed").

(** deploy.js, lines 191-210. *)
Definition deployERC20Handler : M unit :=
  a <- getArgs ;;
  if negb (isValidAddress (bridgeAddress a)) then
    console_log
      (Text "ERC20Handler contract failed to deploy due to invalid bridge address")
  else
    contract <- factory_deploy Erc20Handler
                  [Scalar (Str (bridgeAddress a)); Arr []; Arr []; Arr []]
                  (gasPrice (opts a)) (gasLimit (opts a)) ;;
    contract_deployed contract ;;
    assign (set_erc20HandlerContract contract) ;;
    console_log (Text "✓ ERC20Handler contract deployed").

(** deploy.js, lines 212-231. *)
Definition deployGenericHandler : M unit :=
  a <- getArgs ;;
  if negb (isValidAddress (bridgeAddress a)) then
    console_log
      (Text "GenericHandler contract failed to deploy due to invalid bridge address")
  else
    contract <- factory_deploy GenericHandler
                  [Scalar (Str (bridgeAddress a)); Arr []; Arr []; Arr []; Arr []]
                  (gasPrice (opts a)) (gasLimit (opts a)) ;;
    contract_deployed contract ;;
    assign (set_genericHandlerContract contract) ;;
    console_log (Text "✓ GenericHandler contract deployed").

(** deploy.js, lines 233-246. *)
Definition deployAssetStore : M unit :=
  a <- getArgs ;;
  contract <- factory_deploy ChainAsset []
                (gasPrice (opts a)) (gasLimit (opts a)) ;;
  contract_deployed contract ;;
  assign (set_ChainAssetContract contract) ;;
  console_log (Text "✓ ChainAsset contract deployed").

(** [p ? p : "Not Deployed"] *)
Definition orNotDeployed (p : option string) : string :=
  if truthyOpt p then default "" p else "Not Deployed".

Definition rule : string :=
  "================================================================".

Definition dashes : string :=
  "----------------------------------------------------------------".

(** The lines of the template literal of [displayLog]; [c] is
    [args.cost]. *)
Definition summaryLines (a : Args) (c : Z) : list string :=
  [ "";
    rule;
    "Url:        " ++ url (opts a);
    "Deployer:   " ++ wallet_address (opts a);
    "Gas Limit:   " ++ decimal (gasLimit (opts a));
    "Gas Price:   " ++ decimal (gasPrice (opts a));
    "Deploy Cost: " ++ formatEther c;
    "";
    "Options";
    "=======";
    "Chain Id:    " ++ toString (chainId (opts a));
    "Threshold:   " ++ toString (relayerThreshold (opts a));
    "Relayers:    " ++ joinComma (relayers (opts a));
    "Bridge Fee:  " ++ toString (fee (opts a));
    "Expiry:      " ++ toString (expiry (opts a));
    "";
    "Contract Addresses";
    rule;
    "Bridge:             "
      ++ orNotDeployed (Some (bridgeAddress a));
    dashes;
    "Erc20 Handler:      "
      ++ orNotDeployed (erc20HandlerContract a);
    dashes;
    "Generic Handler:    "
      ++ orNotDeployed (genericHandlerContract a);
    dashes;
    "Erc20:              "
      ++ orNotDeployed (erc20Contract a);
    dashes;
    "Chain Asset:   "
      ++ orNotDeployed (ChainAssetContract a);
    rule;
    "        " ].

(** deploy.js, lines 114-150.  [formatEther(args.cost)] throws when
    [args.cost] was never assigned. *)
Definition displayLog : M unit :=
  a <- getArgs ;;
  match cost a with
  | None => throw InvalidBigNumber
  | Some c => console_log (Text (String.concat newline (summaryLines a c)))
  end.

(** deploy.js, lines 94-112. *)
Definition createConfig : M unit :=
  a <- getArgs ;;
  let config := [] in
  let config := put "name" (Scalar (Str "eth")) config in
  let config := put "chainId" (Scalar (chainId (opts a))) config in
  let config := put "endpoint" (Scalar (Str (url (opts a)))) config in
  let config := put "bridge" (Scalar (Str (bridgeAddress a))) config in
  let config := put "erc20Handler" (ofOpt (erc20HandlerContract a)) config in
  let config := put "genericHandler" (ofOpt (genericHandlerContract a)) config in
  n <- toNumber (gasLimit (opts a)) ;;
  let config := put "gasLimit" (Scalar (Num n)) config in
  n <- toNumber (gasPrice (opts a)) ;;
  let config := put "maxGasPrice" (Scalar (Num n)) config in
  let config := put "startBlock" (Scalar (Str "0")) config in
  let config := put "http" (Scalar (Str "false")) config in
  let config := put "relayers" (Arr (relayers (opts a))) config in
  let data := JSON_stringify config in
  console_log
    (Text "EVM Configuration, please copy this into your ChainBridge config file:") ;;
  console_log data.

(** deploy.js, lines 59-82: the explicit branch of the action, one
    conditional per contract kind, each setting the local [deployed]. *)
Definition deploySelected (a : Args) : M unit :=
  let deployed := false in
  deployed <- (if bridge (opts a)
               then deployBridgeContract ;; ret true
               else ret deployed) ;;
  deployed <- (if erc20Handler (opts a)
               then deployERC20Handler ;; ret true
               else ret deployed) ;;
  deployed <- (if genericHandler (opts a)
               then deployGenericHandler ;; ret true
               else ret deployed) ;;
  deployed <- (if erc20 (opts a)
               then deployERC20 ;; ret true
               else ret deployed) ;;
  deployed <- (if asset (opts a)
               then deployAssetStore ;; ret true
               else ret deployed) ;;
  if negb deployed then throw NoTargetSpecified else ret tt.

(** deploy.js, lines 49-92: the [.action] callback of [deployCmd] after
    [setupParentArgs], in two parts.  [runDeployment] is the callback up
    to the assignment of [args.cost] (lines 51-87): the deployment
    sequence between the two balance queries. *)
Definition runDeployment : M unit :=
  a <- getArgs ;;
  startBal <- provider_getBalance (wallet_address (opts a)) ;;
  console_log (Text "Deploying contracts...") ;;
  (if all (opts a) then
     deployBridgeContract ;;
     deployERC20Handler ;;
     deployGenericHandler ;;
     deployERC20
   else
     deploySelected a) ;;
  a <- getArgs ;;
  endBal <- provider_getBalance (wallet_address (opts a)) ;;
  assign (set_cost (startBal - endBal)).

(** The whole callback: the sequence, then the report (lines 88-91). *)
Definition action : M unit :=
  runDeployment ;;
  displayLog ;;
  a <- getArgs ;;
  if config (opts a) then createConfig else ret tt.

End Command.

(** The world in which one invocation of the command starts. *)
Definition start (o : Options) (bridgeAddressOption : string) : World :=
  {| args := initArgs o bridgeAddressOption; trace := [] |}.

(** ** A reference instance of the imported helpers *)

Module Reference.

Definition isHexDigit (c : ascii) : bool :=
  let n := nat_of_ascii c in
  ((48 <=? n) && (n <=? 57) || (65 <=? n) && (n <=? 70)
   || (97 <=? n) && (n <=? 102))%nat.

Fixpoint allHex (s : string) : bool :=
  match s with
  | EmptyString => true
  | String c rest => isHexDigit c && allHex rest
  end.

(** Modelled from the spec: [isValidAddress] of [./utils] is not in the
    file.  The spec calls an address valid when it is a fixed-length hex
    string with the chain's address prefix: here ["0x"] and forty hex
    digits. *)
Definition isAddress (s : string) : bool :=
  match s with
  | String "0" (String "x" rest) => (String.length rest =? 40)%nat && allHex rest
  | _ => false
  end.

Definition digit (c : ascii) : option Z :=
  let n := nat_of_ascii c in
  if ((48 <=? n) && (n <=? 57))%nat then Some (Z.of_nat n - 48) else None.

(** A run of decimal digits, read most significant first. *)
Fixpoint digits (s : string) (acc : Z) : option Z :=
  match s with
  | EmptyString => Some acc
  | String c rest =>
      match digit c with
      | Some d => digits rest (10 * acc + d)
      | None => None
      end
  end.

(** [value.split(".")], up to the first point. *)
Fixpoint splitPoint (s : string) : string * option string :=
  match s with
  | EmptyString => (EmptyString, None)
  | String c rest =>
      if (c =? ".")%char then (EmptyString, Some rest)
      else let (whole, fraction) := splitPoint rest in (String c whole, fraction)
  end.

Definition parseUnsigned (s : string) : option Z :=
  if ((s =? "") || (s =? "."))%string then None
  else
    let (whole, fraction) := splitPoint s in
    let fraction := default "" fraction in
    if (18 <? String.length fraction)%nat then None
    else
      match digits whole 0, digits fraction 0 with
      | Some w, Some f =>
          Some (w * 10 ^ 18 + f * 10 ^ (18 - Z.of_nat (String.length fraction)))
      | _, _ => None
      end.

(** [ethers.utils.parseEther] on plain decimal numerals: at most
    eighteen fraction digits, an optional leading minus sign. *)
Definition parseUnits18 (s : string) : option Z :=
  match s with
  | String "-" rest => option_map Z.opp (parseUnsigned rest)
  | _ => parseUnsigned s
  end.

Fixpoint dropZeros (cs : list ascii) : list ascii :=
  match cs with
  | "0"%char :: rest => dropZeros rest
  | _ => cs
  end.

(** The eighteen fraction digits of [f] without the trailing zeros, but
    never empty. *)
Definition fractionDigits (f : Z) : string :=
  let s := decimal f in
  let padded := concat "" (repeat "0" (18 - String.length s)) ++ s in
  match rev (dropZeros (rev (list_ascii_of_string padded))) with
  | [] => "0"
  | cs => string_of_list_ascii cs
  end.

(** [ethers.utils.formatEther]: wei as a decimal number of ether. *)
Definition formatUnits18 (wei : Z) : string :=
  let v := Z.abs wei in
  (if wei <? 0 then "-" else "")
    ++ decimal (v / 10 ^ 18) ++ "." ++ fractionDigits (v mod 10 ^ 18).

#[export] Instance lib : Lib :=
  {| isValidAddress := isAddress;
     parseEther := parseUnits18;
     formatEther := formatUnits18 |}.

(** Sample endpoints.  [steady] accepts every call: the wallet starts
    with one ether and each contract creation sent so far has cost it
    21000 wei. *)
Definition isCreation (e : Event) : bool :=
  match e with
  | EDeploy _ _ _ _ (Some _) => true
  | _ => false
  end.

Definition addressOf (kind : ContractKind) : string :=
  match kind with
  | Bridge => "0x00000000000000000000000000000000000000b1"
  | Erc20Handler => "0x00000000000000000000000000000000000000e1"
  | GenericHandler => "0x00000000000000000000000000000000000000a1"
  | Erc20Mintable => "0x00000000000000000000000000000000000000c1"
  | ChainAsset => "0x00000000000000000000000000000000000000d1"
  end.

Definition steady : Network :=
  {| net_getBalance := fun t _ =>
       Some (10 ^ 18 - 21000 * Z.of_nat (List.length (filter isCreation t)));
     net_deploy := fun _ kind _ _ _ => Some (addressOf kind);
     net_deployed := fun _ _ => true |}.

(** As [steady], but the creation of a contract of kind [bad] is never
    mined. *)
Definition unmined (bad : ContractKind) : Network :=
  {| net_getBalance := net_getBalance steady;
     net_deploy := net_deploy steady;
     net_deployed := fun _ address =>
       negb (address =? addressOf bad)%string |}.

(** An endpoint that rejects every call. *)
Definition offline : Network :=
  {| net_getBalance := fun _ _ => None;
     net_deploy := fun _ _ _ _ _ => None;
     net_deployed := fun _ _ => false |}.

(** The command line [deploy] with no flag: every option at its
    default, the parent's gas settings and a wallet. *)
Definition defaults : Options :=
  {| chainId := Num 0;
     relayers := ["0xff93B45308FD417dF303D6515aB04D9e89a750Ca";
                  "0x8e0a907331554AF72563Bd8D43051C2E64Be5d35"];
     relayerThreshold := Num 2;
     fee := Num 0;
     expiry := Num 100;
     all := false;
     bridge := false;
     erc20Handler := false;
     genericHandler := false;
     erc20 := false;
     erc20Symbol := "";
     erc20Name := "";
     erc20Decimals := Num 18;
     asset := false;
     config := false;
     url := "http://localhost:8545";
     wallet_address := "0xff93B45308FD417dF303D6515aB04D9e89a750Ca";
     gasPrice := 20000000;
     gasLimit := 8000000 |}.

Definition select (all bridge erc20Handler genericHandler erc20 asset config : bool)
  : Options :=
  {| chainId := chainId defaults;
     relayers := relayers defaults;
     relayerThreshold := relayerThreshold defaults;
     fee := fee defaults;
     expiry := expiry defaults;
     all := all;
     bridge := bridge;
     erc20Handler := erc20Handler;
     genericHandler := genericHandler;
     erc20 := erc20;
     erc20Symbol := erc20Symbol defaults;
     erc20Name := erc20Name defaults;
     erc20Decimals := erc20Decimals defaults;
     asset := asset;
     config := config;
     url := url defaults;
     wallet_address := wallet_address defaults;
     gasPrice := gasPrice defaults;
     gasLimit := gasLimit defaults |}.

End Reference.

(** * The vocabulary of the specification *)

Local Open Scope list_scope.

(** ** Reading a trace *)

Definition isNetworkCall (e : Event) : bool :=
  match e with
  | EGetBalance _ _ | EDeploy _ _ _ _ _ | EDeployed _ _ => true
  | _ => false
  end.

Definition isDeploy (e : Event) : bool :=
  match e with
  | EDeploy _ _ _ _ _ => true
  | _ => false
  end.

Definition isBalanceQuery (e : Event) : bool :=
  match e with
  | EGetBalance _ _ => true
  | _ => false
  end.

(** A deploy or confirmation call whose promise was rejected. *)
Definition deployFailed (e : Event) : bool :=
  match e with
  | EDeploy _ _ _ _ None | EDeployed _ false => true
  | _ => false
  end.

(** Any network call whose promise was rejected. *)
Definition rpcFailed (e : Event) : bool :=
  match e with
  | EGetBalance _ None => true
  | _ => deployFailed e
  end.

Definition networkCalls (t : Trace) : Trace := filter isNetworkCall t.

(** The deployments and the assignments of a trace, in order. *)
Definition steps (t : Trace) : Trace :=
  filter (fun e => match e with
                   | EDeploy _ _ _ _ _ | EAssign _ => true
                   | _ => false
                   end) t.

(** [args] as the assignments of [t] leave it, starting from [a]. *)
Fixpoint contextAfter (a : Args) (t : Trace) : Args :=
  match t with
  | [] => a
  | EAssign a' :: rest => contextAfter a' rest
  | _ :: rest => contextAfter a rest
  end.

Definition isHandler (kind : ContractKind) : bool :=
  match kind with
  | Erc20Handler | GenericHandler => true
  | _ => false
  end.

Definition isAssign (e : Event) : bool :=
  match e with
  | EAssign _ => true
  | _ => false
  end.

Definition notFailed (e : Event) : Prop := rpcFailed e = false.

Definition isDocument (e : Event) : bool :=
  match e with
  | ELog (Json _) => true
  | _ => false
  end.

Definition kindEqb (k k' : ContractKind) : bool :=
  match k, k' with
  | Bridge, Bridge | Erc20Handler, Erc20Handler
  | GenericHandler, GenericHandler | Erc20Mintable, Erc20Mintable
  | ChainAsset, ChainAsset => true
  | _, _ => false
  end.

(** The kinds of the deploys of a trace, in order, rejected or not. *)
Definition deployedKinds (t : Trace) : list ContractKind :=
  flat_map (fun e => match e with
                     | EDeploy kind _ _ _ _ => [kind]
                     | _ => []
                     end) t.

(** [ks] is [order] with some of its kinds left out. *)
Fixpoint subsequence (ks order : list ContractKind) : bool :=
  match ks, order with
  | [], _ => true
  | _ :: _, [] => false
  | k :: ks', k' :: order' =>
      if kindEqb k k' then subsequence ks' order' else subsequence ks order'
  end.

(** The order of deployment under [--all]. *)
Definition orderOfAll : list ContractKind :=
  [Bridge; Erc20Handler; GenericHandler; Erc20Mintable].

(** The address of the Bridge contract created in a trace. *)
Fixpoint bridgeCreated (t : Trace) : option string :=
  match t with
  | [] => None
  | EDeploy Bridge _ _ _ answer :: _ => answer
  | _ :: rest => bridgeCreated rest
  end.

(** A handler deploy of [t] has the Bridge contract created in [t] as its
    first constructor argument. *)
Definition handlerWired (t : Trace) (e : Event) : Prop :=
  match e with
  | EDeploy kind ctor _ _ _ =>
      isHandler kind = true ->
      exists b, bridgeCreated t = Some b /\ hd_error ctor = Some (Scalar (Str b))
  | _ => True
  end.

(** ** Weakest preconditions over the monad *)

Definition wp {A} (m : M A) (Q : Outcome A -> World -> Prop) (w : World) : Prop :=
  Q (fst (m w)) (snd (m w)).

Definition status {A} (r : Outcome A) : option Error :=
  match r with
  | Ok _ => None
  | Throw e => Some e
  end.

(** ** What a run may emit *)

(** Every event of [t] satisfies [psi] in the context in which it
    happens, [a] being the context in which [t] starts. *)
Fixpoint checked (psi : Args -> Event -> Prop) (a : Args) (t : Trace) : Prop :=
  match t with
  | [] => True
  | e :: rest => psi a e /\ checked psi (contextAfter a [e]) rest
  end.

(** The failures of a trace, seen from the way the run ended: a rejected
    promise ends the run on the spot. *)
Definition failStop (st : option Error) (ext : Trace) : Prop :=
  match st with
  | Some NetworkOrChainError =>
      exists pre e, ext = pre ++ [e] /\ rpcFailed e = true /\ Forall notFailed pre
  | _ => Forall notFailed ext
  end.

Section Vocabulary.

Context {lib : Lib}.

(** No handler address without a valid bridge address. *)
Definition handlerInv (a : Args) : Prop :=
  erc20HandlerContract a <> None \/ genericHandlerContract a <> None ->
  isValidAddress (bridgeAddress a) = true.

Definition fresh (a : Args) : Prop :=
  erc20HandlerContract a = None /\ genericHandlerContract a = None.

(** The constructor-argument table of the spec: the arguments of a
    contract of each kind, for the options [o] and the bridge address
    [b] of the context. *)
Definition tableRow (o : Options) (b : string) (kind : ContractKind)
           (ctor : list value) : Prop :=
  match kind with
  | Bridge =>
      exists wei,
        parseEther (toString (fee o)) = Some wei /\
        ctor = [Scalar (chainId o); Arr (relayers o);
                Scalar (relayerThreshold o); Big wei; Scalar (expiry o)]
  | Erc20Handler => ctor = [Scalar (Str b); Arr []; Arr []; Arr []]
  | GenericHandler => ctor = [Scalar (Str b); Arr []; Arr []; Arr []; Arr []]
  | Erc20Mintable =>
      ctor = [Scalar (Str (erc20Name o)); Scalar (Str (erc20Symbol o));
              Scalar (erc20Decimals o)]
  | ChainAsset => ctor = []
  end.

(** What an event of the deployment sequence must be like in the
    context [a] in which it happens. *)
Definition lawful (a : Args) (e : Event) : Prop :=
  match e with
  | EDeploy kind ctor gp gl _ =>
      gp = gasPrice (opts a) /\ gl = gasLimit (opts a) /\
      tableRow (opts a) (bridgeAddress a) kind ctor /\
      (isHandler kind = true -> isValidAddress (bridgeAddress a) = true)
  | EAssign a' => opts a' = opts a /\ handlerInv a'
  | EGetBalance _ _ => False
  | _ => True
  end.

(** What an event of the whole callback must be like: as [lawful], but
    the balance queries and the assignment of [args.cost] are part of
    it. *)
Definition sound (a : Args) (e : Event) : Prop :=
  match e with
  | EDeploy kind ctor gp gl _ =>
      gp = gasPrice (opts a) /\ gl = gasLimit (opts a) /\
      tableRow (opts a) (bridgeAddress a) kind ctor /\
      (isHandler kind = true -> isValidAddress (bridgeAddress a) = true)
  | EAssign a' => opts a' = opts a /\ handlerInv a'
  | _ => True
  end.

(** [w] is [w0] after events that satisfy [psi], the last of which alone
    may be a rejected promise, and only when the run ended with [st]. *)
Definition emitted (psi : Args -> Event -> Prop) (w0 : World) (st : option Error) (w : World) : Prop :=
  exists ext,
    trace w = trace w0 ++ ext /\
    args w = contextAfter (args w0) ext /\
    checked psi (args w0) ext /\
    failStop st ext.

Definition ends (w0 : World) {A} (r : Outcome A) (w' : World) : Prop :=
  emitted lawful w0 (status r) w'.

(** The world after the first balance query and the first console
    line. *)
Definition begun (s : Z) (w : World) : World :=
  emit (ELog (Text "Deploying contracts..."))
       (emit (EGetBalance (wallet_address (opts (args w))) (Some s)) w).

(** How [runDeployment] ends: soundly, and when it returns, with the
    lawful sequence between its two balance queries and [args.cost]
    assigned their difference. *)
Definition completed (w : World) (r : Outcome unit) (w' : World) : Prop :=
  emitted sound w (status r) w' /\
  (r = Ok tt ->
   exists s e w2,
     emitted lawful (begun s w) None w2 /\
     w' = written (set_cost (s - e) (args w2))
            (emit (EGetBalance (wallet_address (opts (args w2))) (Some e)) w2)).

(** The report: the summary, then the configuration when asked for. *)
Definition report : M unit :=
  displayLog ;;
  a <- getArgs ;;
  if config (opts a) then createConfig else ret tt.

(** The summary [displayLog] logs for the context [a] and the cost
    [c]. *)
Definition summary (a : Args) (c : Z) : Output :=
  Text (String.concat newline (summaryLines a c)).

(** The address block at the end of the summary when nothing was
    deployed. *)
Definition nothingDeployed : list string :=
  [ "Bridge:             Not Deployed";
    dashes;
    "Erc20 Handler:      Not Deployed";
    dashes;
    "Generic Handler:    Not Deployed";
    dashes;
    "Erc20:              Not Deployed";
    dashes;
    "Chain Asset:   Not Deployed";
    rule;
    "        " ].

(** The selection is explicit and names no contract. *)
Definition nothingSelected (o : Options) : Prop :=
  all o = false /\ bridge o = false /\ erc20Handler o = false /\
  genericHandler o = false /\ erc20 o = false /\ asset o = false.

(** Every balance query is answered. *)
Definition answersBalance (net : Network) : Prop :=
  forall t address, net_getBalance net t address <> None.

(** Every call is answered, and a contract being created has a valid
    address. *)
Definition reliable (net : Network) : Prop :=
  answersBalance net
  /\ (forall t kind ctor gp gl,
        exists c, net_deploy net t kind ctor gp gl = Some c
                  /\ isValidAddress c = true)
  /\ (forall t address, net_deployed net t address = true).

Definition erc20HandlerDiagnostic : Output :=
  Text "ERC20Handler contract failed to deploy due to invalid bridge address".

End Vocabulary.

(** The configuration object as [createConfig] fills it for a context
    whose gas settings convert. *)
Definition configOf (a : Args) : list (string * value) :=
  [ ("name", Scalar (Str "eth"));
    ("chainId", Scalar (chainId (opts a)));
    ("endpoint", Scalar (Str (url (opts a))));
    ("bridge", Scalar (Str (bridgeAddress a)));
    ("erc20Handler", ofOpt (erc20HandlerContract a));
    ("genericHandler", ofOpt (genericHandlerContract a));
    ("gasLimit", Scalar (Num (gasLimit (opts a))));
    ("maxGasPrice", Scalar (Num (gasPrice (opts a))));
    ("startBlock", Scalar (Str "0"));
    ("http", Scalar (Str "false"));
    ("relayers", Arr (relayers (opts a))) ].

Definition configHeader : Output :=
  Text "EVM Configuration, please copy this into your ChainBridge config file:".

(** The document of an output, if it is one. *)
Definition documentOf (out : Output) : list (string * value) :=
  match out with
  | Json doc => doc
  | Text _ => []
  end.

(** Both gas settings are within what [toNumber] converts. *)
Definition gasConverts (a : Args) : Prop :=
  Z.abs (gasLimit (opts a)) < 2 ^ 53 /\ Z.abs (gasPrice (opts a)) < 2 ^ 53.

(** ** Sample invocations *)

Module Samples.

Import Reference.

(** [deploy], [deploy --all] and [deploy --erc20Handler]. *)
Definition noFlags : Options := select false false false false false false false.

Definition allFlag : Options := select true false false false false false false.

Definition onlyErc20Handler : Options :=
  select false false true false false false false.

(** [--all --config] with a gas limit of 2^53. *)
Definition heavy : Options :=
  {| chainId := chainId defaults;
     relayers := relayers defaults;
     relayerThreshold := relayerThreshold defaults;
     fee := fee defaults;
     expiry := expiry defaults;
     all := true;
     bridge := false;
     erc20Handler := false;
     genericHandler := false;
     erc20 := false;
     erc20Symbol := erc20Symbol defaults;
     erc20Name := erc20Name defaults;
     erc20Decimals := erc20Decimals defaults;
     asset := false;
     config := true;
     url := url defaults;
     wallet_address := wallet_address defaults;
     gasPrice := gasPrice defaults;
     gasLimit := 2 ^ 53 |}.

(** The whole callback, and the sequence alone, with no
    [--bridgeAddress]. *)
Definition run (net : Network) (o : Options) : Outcome unit * World :=
  action (lib := lib) net (start o EmptyString).

Definition sequence (net : Network) (o : Options) : Outcome unit * World :=
  runDeployment (lib := lib) net (start o EmptyString).

End Samples.

(** ** The plan of a run and what a run confirms *)

(** The kinds an explicit selection asks for, in the order of the
    conditionals of the action. *)
Definition selectedKinds (o : Options) : list ContractKind :=
  (if bridge o then [Bridge] else [])
  ++ (if erc20Handler o then [Erc20Handler] else [])
  ++ (if genericHandler o then [GenericHandler] else [])
  ++ (if erc20 o then [Erc20Mintable] else [])
  ++ (if asset o then [ChainAsset] else []).

(** The kinds a run may deploy: under [--all] the four of its branch,
    whatever the other flags. *)
Definition plannedKinds (o : Options) : list ContractKind :=
  if all o then orderOfAll else selectedKinds o.

(** The address of the contract of kind [k] whose creation was sent and
    then confirmed in [t]. *)
Fixpoint confirmed (k : ContractKind) (t : Trace) : option string :=
  match t with
  | [] => None
  | e :: rest =>
      match e, rest with
      | EDeploy k' _ _ _ (Some c), EDeployed _ true :: _ =>
          if kindEqb k k' then Some c else confirmed k rest
      | _, _ => confirmed k rest
      end
  end.

Definition isLog (e : Event) : bool :=
  match e with
  | ELog _ => true
  | _ => false
  end.

(** Both gas settings are within what [toNumber] converts, as a test. *)
Definition gasConvertsb (a : Args) : bool :=
  (Z.abs (gasLimit (opts a)) <? 2 ^ 53) && (Z.abs (gasPrice (opts a)) <? 2 ^ 53).

Definition isHandlerDeploy (e : Event) : bool :=
  match e with
  | EDeploy kind _ _ _ _ => isHandler kind
  | _ => false
  end.

(** The text of a console line. *)
Definition textOf (out : Output) : string :=
  match out with
  | Text s => s
  | Json _ => EmptyString
  end.

(** The text [s] was logged in [t]. *)
Definition logged (s : string) (t : Trace) : bool :=
  existsb (fun e => match e with
                    | ELog (Text s') => (s' =? s)%string
                    | _ => false
                    end) t.

Definition isSome {A} (x : option A) : bool :=
  match x with
  | Some _ => true
  | None => false
  end.

(** The line each deploy function logs after the confirmation. *)
Definition successLine (k : ContractKind) : string :=
  match k with
  | Bridge => "✓ Bridge contract deployed"
  | Erc20Handler => "✓ ERC20Handler contract deployed"
  | GenericHandler => "✓ GenericHandler contract deployed"
  | Erc20Mintable => "✓ ERC20 contract deployed"
  | ChainAsset => "✓ ChainAsset contract deployed"
  end.

Definition allKinds : list ContractKind :=
  [Bridge; Erc20Handler; GenericHandler; Erc20Mintable; ChainAsset].

(** The success line of a kind is in [t] exactly when [t] confirms a
    contract of that kind. *)
Definition announced (t : Trace) : bool :=
  forallb (fun k => Bool.eqb (logged (successLine k) t) (isSome (confirmed k t)))
          allKinds.

Section RunVocabulary.

Context {lib : Lib}.

(** A handler deploy of [t] has as first constructor argument the
    address of the Bridge contract created in [t], or the bridge address
    option [b0] when [t] creates none. *)
Definition handlerUses (b0 : string) (t : Trace) (e : Event) : Prop :=
  match e with
  | EDeploy kind ctor _ _ _ =>
      isHandler kind = true ->
      hd_error ctor = Some (Scalar (Str (default b0 (bridgeCreated t))))
  | _ => True
  end.

(** [args] holds, for each kind, the address confirmed in [t]: the
    bridge address falls back on the option [b0], the other properties
    are undefined without a confirmation. *)
Definition recordsConfirmed (b0 : string) (a : Args) (t : Trace) : Prop :=
  bridgeAddress a = default b0 (confirmed Bridge t)
  /\ erc20HandlerContract a = confirmed Erc20Handler t
  /\ genericHandlerContract a = confirmed GenericHandler t
  /\ erc20Contract a = confirmed Erc20Mintable t
  /\ ChainAssetContract a = confirmed ChainAsset t.

(** What every end of the deployment sequence satisfies. *)
Definition explored (o : Options) (b0 : string) (r : Outcome unit) (w' : World)
  : Prop :=
  subsequence (deployedKinds (trace w')) (plannedKinds o) = true
  /\ (status r = Some NoTargetSpecified -> nothingSelected o)
  /\ Forall (handlerUses b0 (trace w')) (trace w')
  /\ recordsConfirmed b0 (args w') (trace w')
  /\ (all o = false -> bridge o = false -> isValidAddress b0 = false ->
      filter isHandlerDeploy (trace w') = [])
  /\ (status r = Some InvalidDecimal ->
      In Bridge (plannedKinds o) /\ parseEther (toString (fee o)) = None)
  /\ (status r <> Some NumericOverflow /\ status r <> Some InvalidBigNumber)
  /\ (status r <> None -> cost (args w') = None)
  /\ announced (trace w') = true.

(** A bridge address is at hand for the handlers: one is deployed before
    them, or the option is a valid address. *)
Definition bridgeAvailable (o : Options) (b0 : string) : bool :=
  all o || bridge o || isValidAddress b0.

(** The planned kinds without the handlers that have no bridge address. *)
Definition expectedKinds (o : Options) (b0 : string) : list ContractKind :=
  filter (fun k => negb (isHandler k) || bridgeAvailable o b0) (plannedKinds o).

Definition genericHandlerDiagnostic : Output :=
  Text "GenericHandler contract failed to deploy due to invalid bridge address".


(** The end of the report on the world [w], [args.cost] being [c]. *)
Definition reported (w : World) (c : Z) : Outcome unit * World :=
  let w1 := emit (ELog (summary (args w) c)) w in
  if config (opts (args w)) then
    if gasConvertsb (args w) then
      (Ok tt,
       emit (ELog (JSON_stringify (configOf (args w)))) (emit (ELog configHeader) w1))
    else (Throw NumericOverflow, w1)
  else (Ok tt, w1).

End RunVocabulary.

(** ** More sample invocations *)

Module Selections.

Import Reference.

(** [deploy --erc20Handler --erc20] and [deploy --all --config]. *)
Definition handlerAndToken : Options :=
  select false false true false true false false.


(** [deploy --all --fee abc]. *)
Definition unparsableFee : Options :=
  {| chainId := chainId defaults;
     relayers := relayers defaults;
     relayerThreshold := relayerThreshold defaults;
     fee := Str "abc";
     expiry := expiry defaults;
     all := true;
     bridge := false;
     erc20Handler := false;
     genericHandler := false;
     erc20 := false;
     erc20Symbol := erc20Symbol defaults;
     erc20Name := erc20Name defaults;
     erc20Decimals := erc20Decimals defaults;
     asset := false;
     config := false;
     url := url defaults;
     wallet_address := wallet_address defaults;
     gasPrice := gasPrice defaults;
     gasLimit := gasLimit defaults |}.



End Selections.

(** * Reasoning about the command *)

Lemma contextAfter_app (a : Args) (t u : Trace) :
  contextAfter a (t ++ u) = contextAfter (contextAfter a t) u.
Proof.
  revert a; induction t as [|e t IH]; intro a; simpl; [reflexivity|].
  destruct e; apply IH.
Qed.

(** ** Rules of symbolic execution *)

Lemma wp_bind {A B} (m : M A) (k : A -> M B) (Q : Outcome B -> World -> Prop) w :
  wp m (fun r w' => match r with
                    | Ok a => wp (k a) Q w'
                    | Throw e => Q (Throw e) w'
                    end) w ->
  wp (bind m k) Q w.
Proof.
  unfold wp, bind. destruct (m w) as [[a|e] w']; simpl; auto.
Qed.

Lemma wp_mono {A} (m : M A) (Q Q' : Outcome A -> World -> Prop) w :
  wp m Q w -> (forall r w', Q r w' -> Q' r w') -> wp m Q' w.
Proof. unfold wp; auto. Qed.

Lemma wp_ret {A} (a : A) (Q : Outcome A -> World -> Prop) w :
  Q (Ok a) w -> wp (ret a) Q w.
Proof. auto. Qed.

Lemma wp_throw {A} (e : Error) (Q : Outcome A -> World -> Prop) w :
  Q (Throw e) w -> wp (throw e) Q w.
Proof. auto. Qed.

Lemma wp_getArgs (Q : Outcome Args -> World -> Prop) w :
  Q (Ok (args w)) w -> wp getArgs Q w.
Proof. auto. Qed.

Lemma wp_assign (f : Args -> Args) (Q : Outcome unit -> World -> Prop) w :
  Q (Ok tt) (written (f (args w)) w) -> wp (assign f) Q w.
Proof. auto. Qed.

Lemma wp_console_log (out : Output) (Q : Outcome unit -> World -> Prop) w :
  Q (Ok tt) (emit (ELog out) w) -> wp (console_log out) Q w.
Proof. auto. Qed.

Lemma wp_toNumber (n : Z) (Q : Outcome Z -> World -> Prop) w :
  (Z.abs n < 2 ^ 53 -> Q (Ok n) w) ->
  (2 ^ 53 <= Z.abs n -> Q (Throw NumericOverflow) w) ->
  wp (toNumber n) Q w.
Proof.
  intros Hok Hbad. unfold wp, toNumber.
  destruct (Z.ltb_spec (Z.abs n) (2 ^ 53)); simpl; auto.
Qed.

Section Calls.

Context {lib : Lib}.
Variable net : Network.

Lemma wp_getBalance (address : string) (Q : Outcome Z -> World -> Prop) w :
  (forall b, net_getBalance net (trace w) address = Some b ->
             Q (Ok b) (emit (EGetBalance address (Some b)) w)) ->
  (net_getBalance net (trace w) address = None ->
   Q (Throw NetworkOrChainError) (emit (EGetBalance address None) w)) ->
  wp (provider_getBalance net address) Q w.
Proof.
  intros Hok Hbad. unfold wp, provider_getBalance.
  destruct (net_getBalance net (trace w) address); simpl; auto.
Qed.

Lemma wp_factory_deploy (kind : ContractKind) (ctor : list value) (gp gl : Z)
      (Q : Outcome string -> World -> Prop) w :
  (forall c, net_deploy net (trace w) kind ctor gp gl = Some c ->
             Q (Ok c) (emit (EDeploy kind ctor gp gl (Some c)) w)) ->
  (net_deploy net (trace w) kind ctor gp gl = None ->
   Q (Throw NetworkOrChainError) (emit (EDeploy kind ctor gp gl None) w)) ->
  wp (factory_deploy net kind ctor gp gl) Q w.
Proof.
  intros Hok Hbad. unfold wp, factory_deploy.
  destruct (net_deploy net (trace w) kind ctor gp gl); simpl; auto.
Qed.

Lemma wp_contract_deployed (address : string)
      (Q : Outcome unit -> World -> Prop) w :
  (net_deployed net (trace w) address = true ->
   Q (Ok tt) (emit (EDeployed address true) w)) ->
  (net_deployed net (trace w) address = false ->
   Q (Throw NetworkOrChainError) (emit (EDeployed address false) w)) ->
  wp (contract_deployed net address) Q w.
Proof.
  intros Hok Hbad. unfold wp, contract_deployed.
  destruct (net_deployed net (trace w) address); simpl; auto.
Qed.

Lemma wp_parseEther (s : string) (Q : Outcome Z -> World -> Prop) w :
  (forall wei, parseEther s = Some wei -> Q (Ok wei) w) ->
  (parseEther s = None -> Q (Throw InvalidDecimal) w) ->
  wp (ethers_parseEther s) Q w.
Proof.
  intros Hok Hbad. unfold wp, ethers_parseEther.
  destruct (parseEther s); simpl; auto.
Qed.

End Calls.

(** One step of symbolic execution. *)
Ltac wp_step :=
  lazymatch goal with
  | |- wp (bind _ _) _ _ => apply wp_bind
  | |- wp (ret _) _ _ => apply wp_ret
  | |- wp (throw _) _ _ => apply wp_throw
  | |- wp getArgs _ ?w =>
      apply wp_getArgs;
      let a := eval cbn [args emit written] in (args w) in
      change (args w) with a
  | |- wp (assign _) _ _ => apply wp_assign
  | |- wp (console_log _) _ _ => apply wp_console_log
  | |- wp (toNumber _) _ _ => apply wp_toNumber; [intros ?|intros ?]
  | |- wp (provider_getBalance _ _) _ _ =>
      apply wp_getBalance; [intros ? ?|intros ?]
  | |- wp (factory_deploy _ _ _ _ _) _ _ =>
      apply wp_factory_deploy; [intros ? ?|intros ?]
  | |- wp (contract_deployed _ _) _ _ =>
      apply wp_contract_deployed; intros ?
  | |- wp (ethers_parseEther _) _ _ => apply wp_parseEther; [intros ? ?|intros ?]
  | |- wp (if ?b then _ else _) _ _ => destruct b eqn:?
  | |- wp (match ?x with _ => _ end) _ _ => destruct x eqn:?
  end; cbv beta iota.

Ltac wp_steps := repeat wp_step.

(** ** What the deployment sequence may emit *)

Lemma checked_app psi a t u :
  checked psi a (t ++ u) <-> checked psi a t /\ checked psi (contextAfter a t) u.
Proof.
  revert a; induction t as [|e t IH]; intro a; simpl.
  - tauto.
  - rewrite IH. destruct e; simpl; tauto.
Qed.

Lemma checked_mono (psi psi' : Args -> Event -> Prop) a t :
  (forall a e, psi a e -> psi' a e) -> checked psi a t -> checked psi' a t.
Proof.
  intro H; revert a; induction t as [|e t IH]; intro a; simpl; [auto|].
  intros [He Ht]; split; auto.
Qed.

(** The event at any position satisfies [psi] in the context left by the
    events before it. *)
Lemma checked_at psi a pre e post :
  checked psi a (pre ++ e :: post) -> psi (contextAfter a pre) e.
Proof.
  intro H. apply checked_app in H. destruct H as [_ [H _]]. exact H.
Qed.

(** A property of the context that every checked assignment keeps holds
    after any checked trace. *)
Lemma checked_keeps (psi : Args -> Event -> Prop) (K : Args -> Prop) :
  (forall a a', K a -> psi a (EAssign a') -> K a') ->
  forall t a, K a -> checked psi a t -> K (contextAfter a t).
Proof.
  intros Hstep t; induction t as [|e t IH]; intros a Ha Ht; simpl in *.
  - exact Ha.
  - destruct Ht as [He Ht].
    destruct e; simpl in Ht; try (apply IH; assumption).
    apply IH; [eapply Hstep; eassumption | assumption].
Qed.

Section Sequence.

Context {lib : Lib}.
Variable net : Network.

Lemma fresh_handlerInv a : fresh a -> handlerInv a.
Proof. intros [H1 H2] [H|H]; congruence. Qed.

Lemma lawful_sound a e : lawful a e -> sound a e.
Proof. destruct e; simpl; tauto. Qed.

End Sequence.

Section Emitted.

Variable psi : Args -> Event -> Prop.

Lemma emitted_refl w : emitted psi w None w.
Proof.
  exists []. rewrite app_nil_r. repeat split; simpl; auto.
Qed.

Lemma contextAfter_snoc a t e :
  isAssign e = false -> contextAfter a (t ++ [e]) = contextAfter a t.
Proof.
  intro H. rewrite contextAfter_app. destruct e; simpl; auto; discriminate.
Qed.

Lemma emitted_emit w0 w e :
  emitted psi w0 None w -> psi (args w) e -> isAssign e = false ->
  rpcFailed e = false -> emitted psi w0 None (emit e w).
Proof.
  intros (ext & Ht & Ha & Hc & Hf) He Hn Hr.
  exists (ext ++ [e]). simpl. repeat split.
  - rewrite Ht, app_assoc; reflexivity.
  - rewrite contextAfter_snoc; assumption.
  - apply checked_app; split; [assumption|].
    simpl. rewrite <- Ha. auto.
  - apply Forall_app; split; [exact Hf | constructor; [exact Hr | constructor]].
Qed.

Lemma emitted_emit_failed w0 w e :
  emitted psi w0 None w -> psi (args w) e -> isAssign e = false ->
  rpcFailed e = true -> emitted psi w0 (Some NetworkOrChainError) (emit e w).
Proof.
  intros (ext & Ht & Ha & Hc & Hf) He Hn Hr.
  exists (ext ++ [e]). simpl. repeat split.
  - rewrite Ht, app_assoc; reflexivity.
  - rewrite contextAfter_snoc; assumption.
  - apply checked_app; split; [assumption|].
    simpl. rewrite <- Ha. auto.
  - exists ext, e. auto.
Qed.

Lemma emitted_written w0 w a' :
  emitted psi w0 None w -> psi (args w) (EAssign a') ->
  emitted psi w0 None (written a' w).
Proof.
  intros (ext & Ht & Ha & Hc & Hf) He.
  exists (ext ++ [EAssign a']). simpl. repeat split.
  - rewrite Ht, app_assoc; reflexivity.
  - rewrite contextAfter_app; reflexivity.
  - apply checked_app; split; [assumption|].
    simpl. rewrite <- Ha. auto.
  - apply Forall_app; split; [exact Hf | repeat constructor].
Qed.

Lemma emitted_throw w0 w e :
  emitted psi w0 None w -> e <> NetworkOrChainError -> emitted psi w0 (Some e) w.
Proof.
  intros (ext & Ht & Ha & Hc & Hf) He.
  exists ext. repeat split; auto.
  destruct e; simpl; auto; congruence.
Qed.

Lemma emitted_trans w0 w1 st w2 :
  emitted psi w0 None w1 -> emitted psi w1 st w2 -> emitted psi w0 st w2.
Proof.
  intros (ext & Ht & Ha & Hc & Hf) (ext' & Ht' & Ha' & Hc' & Hf').
  exists (ext ++ ext'). repeat split.
  - rewrite Ht', Ht, app_assoc; reflexivity.
  - rewrite contextAfter_app, <- Ha; exact Ha'.
  - apply checked_app; split; [assumption|]. rewrite <- Ha; assumption.
  - simpl in Hf.
    destruct st as [[]|]; simpl in *;
      try (apply Forall_app; split; assumption).
    destruct Hf' as (pre & e & -> & Hr & Hp).
    exists (ext ++ pre), e. rewrite app_assoc. repeat split; auto.
    apply Forall_app; split; assumption.
Qed.

Lemma emitted_keeps (K : Args -> Prop) w0 st w :
  (forall a a', K a -> psi a (EAssign a') -> K a') ->
  K (args w0) -> emitted psi w0 st w -> K (args w).
Proof.
  intros Hstep H0 (ext & _ & Ha & Hc & _).
  rewrite Ha. eapply checked_keeps; eassumption.
Qed.

End Emitted.

Lemma emitted_mono (psi psi' : Args -> Event -> Prop) w0 st w :
  (forall a e, psi a e -> psi' a e) -> emitted psi w0 st w -> emitted psi' w0 st w.
Proof.
  intros H (ext & Ht & Ha & Hc & Hf).
  exists ext. repeat split; auto. eapply checked_mono; eassumption.
Qed.

Section Kept.

Context {lib : Lib}.

Lemma emitted_handlerInv w0 st w :
  handlerInv (args w0) -> emitted sound w0 st w -> handlerInv (args w).
Proof.
  apply (emitted_keeps sound handlerInv). intros a a' _ (_ & H). exact H.
Qed.

Lemma emitted_opts w0 st w :
  emitted sound w0 st w -> opts (args w) = opts (args w0).
Proof.
  apply (emitted_keeps sound (fun a => opts a = opts (args w0))); [|reflexivity].
  intros a a' H (H' & _). congruence.
Qed.

End Kept.

(** ** The five deploy functions *)

Ltac emitted_leaf :=
  cbn [status];
  repeat first
    [ assumption
    | apply emitted_written
    | apply emitted_emit
    | apply emitted_emit_failed
    | apply emitted_throw ];
  cbn [args emit written lawful sound isAssign rpcFailed deployFailed isHandler
       tableRow opts bridgeAddress erc20HandlerContract genericHandlerContract
       erc20Contract ChainAssetContract cost set_bridgeAddress
       set_erc20HandlerContract set_genericHandlerContract set_erc20Contract
       set_ChainAssetContract set_cost];
  try reflexivity; try discriminate; try exact I.

Ltac lawful_side :=
  repeat match goal with
         | H : negb _ = false |- _ => apply negb_false_iff in H
         | H : negb _ = true |- _ => apply negb_true_iff in H
         end;
  unfold handlerInv, fresh in *;
  cbn [opts bridgeAddress erc20HandlerContract genericHandlerContract
       erc20Contract ChainAssetContract cost set_bridgeAddress
       set_erc20HandlerContract set_genericHandlerContract set_erc20Contract
       set_ChainAssetContract set_cost] in *;
  repeat match goal with
         | H : _ /\ _ |- _ => destruct H
         end;
  repeat split; eauto; try congruence;
  try (intros [?|?]; congruence).

Section DeployFunctions.

Context {lib : Lib}.
Variable net : Network.

Lemma deployBridgeContract_spec w0 w :
  emitted lawful w0 None w -> fresh (args w) ->
  wp (deployBridgeContract net) (ends w0) w.
Proof.
  intros Hw Hf. unfold deployBridgeContract.
  wp_steps; unfold ends; emitted_leaf; lawful_side.
Qed.

Lemma deployERC20Handler_spec w0 w :
  emitted lawful w0 None w -> wp (deployERC20Handler net) (ends w0) w.
Proof.
  intros Hw. unfold deployERC20Handler.
  wp_steps; unfold ends; emitted_leaf; lawful_side.
Qed.

Lemma deployGenericHandler_spec w0 w :
  emitted lawful w0 None w -> wp (deployGenericHandler net) (ends w0) w.
Proof.
  intros Hw. unfold deployGenericHandler.
  wp_steps; unfold ends; emitted_leaf; lawful_side.
Qed.

Lemma deployERC20_spec w0 w :
  emitted lawful w0 None w -> handlerInv (args w) ->
  wp (deployERC20 net) (ends w0) w.
Proof.
  intros Hw Hi. unfold deployERC20.
  wp_steps; unfold ends; emitted_leaf; lawful_side.
Qed.

Lemma deployAssetStore_spec w0 w :
  emitted lawful w0 None w -> handlerInv (args w) ->
  wp (deployAssetStore net) (ends w0) w.
Proof.
  intros Hw Hi. unfold deployAssetStore.
  wp_steps; unfold ends; emitted_leaf; lawful_side.
Qed.

(** Calling one of the five functions from a world reached lawfully
    from [w0]. *)
Ltac wp_call :=
  lazymatch goal with
  | |- wp (deployBridgeContract _) _ _ =>
      eapply wp_mono; [eapply deployBridgeContract_spec|]
  | |- wp (deployERC20Handler _) _ _ =>
      eapply wp_mono; [eapply deployERC20Handler_spec|]
  | |- wp (deployGenericHandler _) _ _ =>
      eapply wp_mono; [eapply deployGenericHandler_spec|]
  | |- wp (deployERC20 _) _ _ =>
      eapply wp_mono; [eapply deployERC20_spec|]
  | |- wp (deployAssetStore _) _ _ =>
      eapply wp_mono; [eapply deployAssetStore_spec|]
  end;
  [ try eassumption;
    try (eapply emitted_handlerInv;
         [|eapply emitted_mono; [apply lawful_sound|]]; eassumption) ..
  | intros [[]|?] ? ?; unfold ends in *; cbn [status] in *; cbv beta iota;
    try assumption ].

Ltac wp_run := repeat first [wp_step | wp_call].

Lemma deploySelected_spec a w :
  fresh (args w) -> wp (deploySelected net a) (ends w) w.
Proof.
  intros Hf. pose proof (emitted_refl lawful w) as Hw.
  pose proof (fresh_handlerInv _ Hf) as Hi.
  unfold deploySelected.
  wp_run; unfold ends; emitted_leaf.
Qed.

(** The branch of the action under [--all]. *)
Lemma deployAll_spec w :
  fresh (args w) ->
  wp (deployBridgeContract net ;; deployERC20Handler net ;;
      deployGenericHandler net ;; deployERC20 net) (ends w) w.
Proof.
  intros Hf. pose proof (emitted_refl lawful w) as Hw.
  pose proof (fresh_handlerInv _ Hf) as Hi.
  wp_run; unfold ends; emitted_leaf.
Qed.

Lemma begun_emitted s w : emitted sound w None (begun s w).
Proof.
  unfold begun. pose proof (emitted_refl sound w). emitted_leaf.
Qed.

Lemma branch_spec w :
  fresh (args w) ->
  wp (if all (opts (args w))
      then deployBridgeContract net ;; deployERC20Handler net ;;
           deployGenericHandler net ;; deployERC20 net
      else deploySelected net (args w)) (ends w) w.
Proof.
  intro Hf. destruct (all (opts (args w))).
  - apply deployAll_spec; exact Hf.
  - apply deploySelected_spec; exact Hf.
Qed.

Lemma runDeployment_spec w :
  fresh (args w) -> wp (runDeployment net) (completed w) w.
Proof.
  intro Hf. pose proof (emitted_refl sound w) as Hw.
  pose proof (fresh_handlerInv _ Hf) as Hi.
  unfold runDeployment.
  wp_step. wp_step. wp_step. wp_step; [wp_step; wp_step|].
  - apply wp_bind.
    eapply wp_mono; [exact (branch_spec (begun b w) Hf)|].
    intros r w2 H2. unfold ends in H2.
    assert (Hs : emitted sound w (status r) w2).
    { eapply emitted_trans; [apply begun_emitted|].
      eapply emitted_mono; [apply lawful_sound | exact H2]. }
    destruct r as [[]|e]; cbn [status] in *.
    + pose proof (emitted_handlerInv _ _ _ Hi Hs) as Hi2.
      wp_steps; (split; [emitted_leaf; lawful_side|]).
      * intros _. exists b, b0, w2. split; [exact H2 | reflexivity].
      * discriminate.
    + split; [exact Hs | discriminate].
  - split; [emitted_leaf | discriminate].
Qed.

Lemma report_spec w0 w :
  emitted sound w0 None w -> wp report (fun r w' => emitted sound w0 (status r) w') w.
Proof.
  intro Hw. unfold report, displayLog, createConfig.
  wp_steps; emitted_leaf.
Qed.

Lemma action_spec w :
  fresh (args w) ->
  wp (action net) (fun r w' => emitted sound w (status r) w') w.
Proof.
  intro Hf. unfold action. apply wp_bind.
  eapply wp_mono; [apply runDeployment_spec; exact Hf|].
  intros [[]|e] w' [Hs _]; cbn [status] in Hs.
  - apply (report_spec w w' Hs).
  - exact Hs.
Qed.

End DeployFunctions.

(** * The report builder *)

Section Report.

Context {lib : Lib}.

(** C8: on a context whose [cost] was assigned and in which none of the
    five contract addresses is set, [displayLog] does not throw and
    logs the summary, whose five address lines all read
    "Not Deployed". *)
Theorem displayLog_nothing_deployed (w : World) (c : Z) :
  cost (args w) = Some c ->
  bridgeAddress (args w) = "" ->
  erc20HandlerContract (args w) = None ->
  genericHandlerContract (args w) = None ->
  erc20Contract (args w) = None ->
  ChainAssetContract (args w) = None ->
  displayLog w
  = (Ok tt, emit (ELog (Text (String.concat newline (summaryLines (args w) c)))) w)
  /\ skipn 18 (summaryLines (args w) c) = nothingDeployed.
Proof.
  intros Hc Hb He Hg Ht Ha. split.
  - unfold displayLog, bind, getArgs. rewrite Hc. reflexivity.
  - unfold summaryLines. rewrite Hb, He, Hg, Ht, Ha. reflexivity.
Qed.

End Report.

Lemma createConfig_converts (w : World) :
  gasConverts (args w) ->
  createConfig w
  = (Ok tt, emit (ELog (JSON_stringify (configOf (args w)))) (emit (ELog configHeader) w)).
Proof.
  intros [Hl Hp]. unfold createConfig, bind, getArgs, toNumber.
  apply Z.ltb_lt in Hl, Hp. rewrite Hl, Hp. reflexivity.
Qed.

Lemma createConfig_overflows (w : World) :
  ~ gasConverts (args w) -> createConfig w = (Throw NumericOverflow, w).
Proof.
  intros H. unfold createConfig, bind, getArgs, toNumber.
  destruct (Z.ltb_spec (Z.abs (gasLimit (opts (args w)))) (2 ^ 53)) as [Hl|Hl];
    [|reflexivity].
  destruct (Z.ltb_spec (Z.abs (gasPrice (opts (args w)))) (2 ^ 53)) as [Hp|Hp];
    [|reflexivity].
  exfalso; apply H; split; assumption.
Qed.

Lemma document_fixed_fields (a : Args) :
  let doc := documentOf (JSON_stringify (configOf a)) in
  get "startBlock" doc = Some (Scalar (Str "0"))
  /\ get "http" doc = Some (Scalar (Str "false")).
Proof.
  unfold JSON_stringify, configOf, documentOf.
  destruct (erc20HandlerContract a), (genericHandlerContract a);
    split; reflexivity.
Qed.

Lemma gasConverts_dec (a : Args) : gasConverts a \/ ~ gasConverts a.
Proof.
  unfold gasConverts.
  destruct (Z.ltb_spec (Z.abs (gasLimit (opts a))) (2 ^ 53));
    destruct (Z.ltb_spec (Z.abs (gasPrice (opts a))) (2 ^ 53));
    solve [left; split; assumption | right; intros [? ?]; lia].
Qed.

(** C9: whatever the context, the configuration document [createConfig]
    logs holds ["startBlock"] with the string "0" and ["http"] with the
    string "false"; the only runs that log no document are those in
    which [toNumber] throws on a gas setting, and they log nothing. *)
Theorem createConfig_fixed_fields (w : World) :
  (exists doc,
      createConfig w
      = (Ok tt, emit (ELog (Json doc)) (emit (ELog configHeader) w))
      /\ get "startBlock" doc = Some (Scalar (Str "0"))
      /\ get "http" doc = Some (Scalar (Str "false")))
  \/ (createConfig w = (Throw NumericOverflow, w) /\ ~ gasConverts (args w)).
Proof.
  destruct (gasConverts_dec (args w)) as [H|H].
  - left. exists (documentOf (JSON_stringify (configOf (args w)))).
    split; [|apply document_fixed_fields].
    rewrite (createConfig_converts w H). reflexivity.
  - right. split; [apply createConfig_overflows|]; exact H.
Qed.

(** * The deployment sequencer *)

Section Sequencer.

Context {lib : Lib}.
Variable net : Network.

(** C1, as the code has it: with an explicit selection that names no
    contract the command makes exactly one network call, the balance
    query that opens it; when that query is answered the command then
    throws [NoTargetSpecified] (when it is rejected, the rejection
    propagates), without any deploy, confirmation poll or second
    balance query and with [args] as it was. *)
Theorem nothing_selected_one_balance_query (o : Options) (b0 : string) :
  nothingSelected o ->
  let answer := net_getBalance net [] (wallet_address o) in
  let r := runDeployment net (start o b0) in
  networkCalls (trace (snd r)) = [EGetBalance (wallet_address o) answer]
  /\ fst r = match answer with
             | Some _ => Throw NoTargetSpecified
             | None => Throw NetworkOrChainError
             end
  /\ args (snd r) = initArgs o b0
  /\ action net (start o b0) = r.
Proof.
  intros (Ha & Hb & He & Hg & Ht & Hs).
  unfold action, runDeployment, deploySelected, bind, getArgs,
    provider_getBalance, console_log, ret, throw.
  cbn [start args trace initArgs opts fst snd].
  rewrite Ha, Hb, He, Hg, Ht, Hs.
  destruct (net_getBalance net [] (wallet_address o)); cbn; auto.
Qed.

(** The sequence with only [--erc20Handler] selected and no valid bridge
    address, on any endpoint: only a rejected balance query can end it
    early. *)
Lemma erc20Handler_skipped_any_endpoint (o : Options) (b0 : string) :
  all o = false -> bridge o = false -> erc20Handler o = true ->
  genericHandler o = false -> erc20 o = false -> asset o = false ->
  isValidAddress b0 = false ->
  filter isDeploy (trace (snd (runDeployment net (start o b0)))) = []
  /\ erc20HandlerContract (args (snd (runDeployment net (start o b0)))) = None
  /\ (fst (runDeployment net (start o b0)) = Ok tt
      \/ fst (runDeployment net (start o b0)) = Throw NetworkOrChainError
         /\ exists address,
             last (trace (snd (runDeployment net (start o b0)))) (ELog configHeader)
             = EGetBalance address None).
Proof.
  intros Ha Hb He Hg Ht Hs Hv.
  unfold runDeployment, deploySelected, deployERC20Handler, bind, getArgs,
    provider_getBalance, console_log, assign, ret, throw.
  cbn [start args trace initArgs opts fst snd emit written bridgeAddress].
  rewrite Ha, Hb, He, Hg, Ht, Hs.
  destruct (net_getBalance net [] (wallet_address o)) as [s|];
    [|cbn; eauto 6].
  cbn. rewrite Hv. cbn.
  match goal with
  | |- context [net_getBalance net ?t ?a] =>
      destruct (net_getBalance net t a) as [e|]
  end; cbn; eauto 6.
Qed.

Lemma erc20Handler_skipped_balances_answered (o : Options) (b0 : string) :
  all o = false -> bridge o = false -> erc20Handler o = true ->
  genericHandler o = false -> erc20 o = false -> asset o = false ->
  isValidAddress b0 = false ->
  answersBalance net ->
  exists s e,
    runDeployment net (start o b0)
    = (Ok tt,
       {| args := set_cost (s - e) (initArgs o b0);
          trace := [ EGetBalance (wallet_address o) (Some s);
                     ELog (Text "Deploying contracts...");
                     ELog erc20HandlerDiagnostic;
                     EGetBalance (wallet_address o) (Some e);
                     EAssign (set_cost (s - e) (initArgs o b0)) ] |}).
Proof.
  intros Ha Hb He Hg Ht Hs Hv Hbal.
  unfold runDeployment, deploySelected, deployERC20Handler, bind, getArgs,
    provider_getBalance, console_log, assign, ret, throw.
  cbn [start args trace initArgs opts fst snd emit written bridgeAddress].
  rewrite Ha, Hb, He, Hg, Ht, Hs.
  destruct (net_getBalance net [] (wallet_address o)) as [s|] eqn:E1;
    [|destruct (Hbal _ _ E1)].
  cbn. rewrite Hv. cbn.
  match goal with
  | |- context [net_getBalance net ?t ?a] =>
      destruct (net_getBalance net t a) as [e|] eqn:E2;
        [|destruct (Hbal _ _ E2)]
  end.
  exists s, e. reflexivity.
Qed.

(** C4, as the code has it: with only [--erc20Handler] selected and no
    valid bridge address on [args], whatever the endpoint answers no
    deploy is sent, [erc20HandlerContract] stays undefined and nothing is
    thrown but the rejection of a balance query; when the two balance
    queries are answered the sequence runs to its end and returns,
    having logged the diagnostic between them. *)
Theorem erc20Handler_skipped_without_bridge (o : Options) (b0 : string) :
  all o = false -> bridge o = false -> erc20Handler o = true ->
  genericHandler o = false -> erc20 o = false -> asset o = false ->
  isValidAddress b0 = false ->
  (filter isDeploy (trace (snd (runDeployment net (start o b0)))) = []
   /\ erc20HandlerContract (args (snd (runDeployment net (start o b0)))) = None
   /\ (fst (runDeployment net (start o b0)) = Ok tt
       \/ fst (runDeployment net (start o b0)) = Throw NetworkOrChainError
          /\ exists address,
              last (trace (snd (runDeployment net (start o b0)))) (ELog configHeader)
              = EGetBalance address None))
  /\ (answersBalance net ->
      exists s e,
        runDeployment net (start o b0)
        = (Ok tt,
           {| args := set_cost (s - e) (initArgs o b0);
              trace := [ EGetBalance (wallet_address o) (Some s);
                         ELog (Text "Deploying contracts...");
                         ELog erc20HandlerDiagnostic;
                         EGetBalance (wallet_address o) (Some e);
                         EAssign (set_cost (s - e) (initArgs o b0)) ] |})).
Proof.
  intros Ha Hb He Hg Ht Hs Hv. split.
  - apply erc20Handler_skipped_any_endpoint; assumption.
  - apply erc20Handler_skipped_balances_answered; assumption.
Qed.

(** Under [--all], on any endpoint: the deploys sent are in the order
    Bridge, ERC20Handler, GenericHandler, ERC20, and a handler is
    constructed with the address of the Bridge contract created before
    it. *)
Lemma all_in_order_any_endpoint (o : Options) (b0 : string) :
  all o = true ->
  subsequence (deployedKinds (trace (snd (runDeployment net (start o b0)))))
              orderOfAll = true
  /\ Forall (handlerWired (trace (snd (runDeployment net (start o b0)))))
            (trace (snd (runDeployment net (start o b0)))).
Proof.
  intros Ha.
  change (wp (runDeployment net)
             (fun _ w' => subsequence (deployedKinds (trace w')) orderOfAll = true
                          /\ Forall (handlerWired (trace w')) (trace w'))
             (start o b0)).
  unfold runDeployment, deployBridgeContract, deployERC20Handler,
    deployGenericHandler, deployERC20.
  wp_steps;
    try (exfalso; cbn in *; congruence);
    (split; [reflexivity|]);
    cbn; repeat constructor; cbn; intros; try discriminate; eauto.
Qed.

Lemma all_four_reliable (o : Options) (b0 : string) (wei : Z) :
  all o = true ->
  parseEther (toString (fee o)) = Some wei ->
  reliable net ->
  exists b h g c s e,
    let a1 := set_bridgeAddress b (initArgs o b0) in
    let a2 := set_erc20HandlerContract h a1 in
    let a3 := set_genericHandlerContract g a2 in
    let a4 := set_erc20Contract c a3 in
    let r := runDeployment net (start o b0) in
    fst r = Ok tt
    /\ args (snd r) = set_cost (s - e) a4
    /\ steps (trace (snd r))
       = [ EDeploy Bridge
             [Scalar (chainId o); Arr (relayers o);
              Scalar (relayerThreshold o); Big wei; Scalar (expiry o)]
             (gasPrice o) (gasLimit o) (Some b);
           EAssign a1;
           EDeploy Erc20Handler [Scalar (Str b); Arr []; Arr []; Arr []]
             (gasPrice o) (gasLimit o) (Some h);
           EAssign a2;
           EDeploy GenericHandler
             [Scalar (Str b); Arr []; Arr []; Arr []; Arr []]
             (gasPrice o) (gasLimit o) (Some g);
           EAssign a3;
           EDeploy Erc20Mintable
             [Scalar (Str (erc20Name o)); Scalar (Str (erc20Symbol o));
              Scalar (erc20Decimals o)]
             (gasPrice o) (gasLimit o) (Some c);
           EAssign a4;
           EAssign (set_cost (s - e) a4) ].
Proof.
  intros Ha Hfee (Hbal & Hdep & Hmined).
  unfold runDeployment, deployBridgeContract, deployERC20Handler,
    deployGenericHandler, deployERC20, ethers_parseEther, bind, getArgs,
    provider_getBalance, factory_deploy, contract_deployed, console_log,
    assign, ret, throw.
  cbn [start args trace initArgs opts fst snd emit written bridgeAddress].
  rewrite Ha.
  repeat
    (cbn;
     match goal with
     | |- context [parseEther (toString (fee o))] => rewrite Hfee
     | |- context [net_getBalance net ?t ?a] =>
         let E := fresh "E" in
         destruct (net_getBalance net t a) eqn:E; [|destruct (Hbal _ _ E)]
     | |- context [net_deploy net ?t ?k ?x ?gp ?gl] =>
         let c := fresh "c" in
         let Hv := fresh "Hv" in
         destruct (Hdep t k x gp gl) as (c & -> & Hv)
     | |- context [net_deployed net ?t ?a] => rewrite (Hmined t a)
     | H : isValidAddress ?c = true |- context [isValidAddress ?c] =>
         rewrite H
     end).
  cbn. do 6 eexists. repeat split; reflexivity.
Qed.

(** C2, as the code has it: under [--all] the deploys of the sequence
    are sent in the order Bridge, ERC20Handler, GenericHandler, ERC20,
    and a handler is constructed with the address of the Bridge contract
    created before it, whatever the endpoint answers; when the fee
    parses and the endpoint answers every call, the sequence returns
    after exactly these four deployments, each followed by the
    assignment of its address, both handlers constructed with the
    address [b] that the Bridge deployment left in
    [args.bridgeAddress]. *)
Theorem all_deploys_four_in_order (o : Options) (b0 : string) :
  all o = true ->
  (subsequence (deployedKinds (trace (snd (runDeployment net (start o b0)))))
               orderOfAll = true
   /\ Forall (handlerWired (trace (snd (runDeployment net (start o b0)))))
             (trace (snd (runDeployment net (start o b0)))))
  /\ (forall wei,
        parseEther (toString (fee o)) = Some wei ->
        reliable net ->
        exists b h g c s e,
          let a1 := set_bridgeAddress b (initArgs o b0) in
          let a2 := set_erc20HandlerContract h a1 in
          let a3 := set_genericHandlerContract g a2 in
          let a4 := set_erc20Contract c a3 in
          let r := runDeployment net (start o b0) in
          fst r = Ok tt
          /\ args (snd r) = set_cost (s - e) a4
          /\ steps (trace (snd r))
             = [ EDeploy Bridge
                   [Scalar (chainId o); Arr (relayers o);
                    Scalar (relayerThreshold o); Big wei; Scalar (expiry o)]
                   (gasPrice o) (gasLimit o) (Some b);
                 EAssign a1;
                 EDeploy Erc20Handler [Scalar (Str b); Arr []; Arr []; Arr []]
                   (gasPrice o) (gasLimit o) (Some h);
                 EAssign a2;
                 EDeploy GenericHandler
                   [Scalar (Str b); Arr []; Arr []; Arr []; Arr []]
                   (gasPrice o) (gasLimit o) (Some g);
                 EAssign a3;
                 EDeploy Erc20Mintable
                   [Scalar (Str (erc20Name o)); Scalar (Str (erc20Symbol o));
                    Scalar (erc20Decimals o)]
                   (gasPrice o) (gasLimit o) (Some c);
                 EAssign a4;
                 EAssign (set_cost (s - e) a4) ]).
Proof.
  intros Ha. split.
  - apply all_in_order_any_endpoint; exact Ha.
  - intros wei Hfee Hrel. apply all_four_reliable; assumption.
Qed.

End Sequencer.

(** * Every run of the command *)

Lemma failure_is_last (pre' : Trace) (e' : Event) (pre : Trace) (e : Event)
      (post : Trace) :
  Forall notFailed pre' -> pre' ++ [e'] = pre ++ e :: post ->
  rpcFailed e = true -> post = [] /\ pre = pre' /\ e = e'.
Proof.
  intros Hp; revert pre; induction Hp as [|x pre' Hx Hp IH]; intros pre Heq He.
  - destruct pre as [|y pre]; simpl in Heq.
    + injection Heq as -> <-. auto.
    + injection Heq as _ Heq. destruct pre; discriminate.
  - destruct pre as [|y pre]; simpl in Heq.
    + injection Heq as -> _. unfold notFailed in Hx. congruence.
    + injection Heq as -> Heq. destruct (IH _ Heq He) as (-> & -> & ->). auto.
Qed.

Lemma deployFailed_rpcFailed (e : Event) : deployFailed e = true -> rpcFailed e = true.
Proof. destruct e as [? []| | | |]; simpl; auto. Qed.

Lemma deployFailed_not_assign (e : Event) : deployFailed e = true -> isAssign e = false.
Proof. destruct e; simpl; auto; discriminate. Qed.

Lemma checked_Forall (psi : Args -> Event -> Prop) (phi : Event -> Prop) :
  (forall a e, psi a e -> phi e) ->
  forall t a, checked psi a t -> Forall phi t.
Proof.
  intros H t; induction t as [|e t IH]; intros a Hc; constructor.
  - apply (H a), Hc.
  - apply (IH _ (proj2 Hc)).
Qed.

Section Runs.

Context {lib : Lib}.
Variable net : Network.
Variable o : Options.
Variable b0 : string.

Lemma start_fresh : fresh (args (start o b0)).
Proof. split; reflexivity. Qed.

(** The whole trace of a run is sound, [args] ends as its assignments
    leave it, and a rejected promise is its last event. *)
Lemma run_sound :
  checked sound (initArgs o b0) (trace (snd (action net (start o b0))))
  /\ args (snd (action net (start o b0)))
     = contextAfter (initArgs o b0) (trace (snd (action net (start o b0))))
  /\ failStop (status (fst (action net (start o b0))))
              (trace (snd (action net (start o b0)))).
Proof.
  destruct (action_spec net (start o b0) start_fresh)
    as (ext & Ht & Ha & Hc & Hf).
  simpl in Ht. rewrite Ht. auto.
Qed.

Lemma prefix_sound (pre post : Trace) :
  trace (snd (action net (start o b0))) = pre ++ post ->
  checked sound (initArgs o b0) pre
  /\ opts (contextAfter (initArgs o b0) pre) = o
  /\ handlerInv (contextAfter (initArgs o b0) pre).
Proof.
  intro Hsplit. destruct run_sound as (Hc & _ & _).
  rewrite Hsplit in Hc. apply checked_app in Hc. destruct Hc as [Hc _].
  split; [exact Hc|]. split.
  - apply (checked_keeps sound (fun a => opts a = o)); auto.
    intros a a' H (H' & _). congruence.
  - apply (checked_keeps sound handlerInv); auto.
    + intros a a' _ (_ & H). exact H.
    + apply fresh_handlerInv, start_fresh.
Qed.

(** C3: at every point of a run, whatever the endpoint answers, the
    context has a handler address only together with a valid bridge
    address; and a handler is deployed only from a context whose
    bridge address is valid. *)
Theorem handler_address_needs_valid_bridge (pre post : Trace) :
  trace (snd (action net (start o b0))) = pre ++ post ->
  handlerInv (contextAfter (initArgs o b0) pre)
  /\ (forall kind ctor gp gl answer rest,
        post = EDeploy kind ctor gp gl answer :: rest ->
        isHandler kind = true ->
        isValidAddress (bridgeAddress (contextAfter (initArgs o b0) pre)) = true).
Proof.
  intro Hsplit. split; [apply (prefix_sound pre post Hsplit)|].
  intros kind ctor gp gl answer rest -> Hk.
  destruct run_sound as (Hc & _ & _). rewrite Hsplit in Hc.
  apply checked_at in Hc. destruct Hc as (_ & _ & _ & Hv). auto.
Qed.

(** C5: every deployment of a run is constructed as the table says, for
    the options of the invocation and the bridge address of the context
    at that point, and with the context's gas settings. *)
Theorem constructor_arguments_follow_table
        (pre : Trace) (kind : ContractKind) (ctor : list value) (gp gl : Z)
        (answer : option string) (post : Trace) :
  trace (snd (action net (start o b0)))
  = pre ++ EDeploy kind ctor gp gl answer :: post ->
  tableRow o (bridgeAddress (contextAfter (initArgs o b0) pre)) kind ctor
  /\ gp = gasPrice o /\ gl = gasLimit o.
Proof.
  intro Hsplit.
  destruct (prefix_sound pre _ Hsplit) as (_ & Ho & _).
  destruct run_sound as (Hc & _ & _). rewrite Hsplit in Hc.
  apply checked_at in Hc. destruct Hc as (Hgp & Hgl & Hrow & _).
  rewrite Ho in *. auto.
Qed.

(** C7: a rejected deploy or confirmation is the last event of the run:
    the run ends there with [NetworkOrChainError], and [args] is left
    as the assignments made before the rejection have it. *)
Theorem rejected_deploy_ends_run (pre : Trace) (e : Event) (post : Trace) :
  trace (snd (action net (start o b0))) = pre ++ e :: post ->
  deployFailed e = true ->
  post = []
  /\ fst (action net (start o b0)) = Throw NetworkOrChainError
  /\ args (snd (action net (start o b0))) = contextAfter (initArgs o b0) pre.
Proof.
  intros Hsplit He.
  pose proof (deployFailed_rpcFailed e He) as Hr.
  destruct run_sound as (_ & Ha & Hf).
  rewrite Hsplit in Ha, Hf.
  assert (Hnot : ~ Forall notFailed (pre ++ e :: post)).
  { intro H. apply Forall_app in H. destruct H as [_ H].
    inversion H; subst. unfold notFailed in *. congruence. }
  destruct (fst (action net (start o b0))) as [[]|err]; simpl in Hf;
    [contradiction|].
  destruct err; simpl in Hf; try contradiction.
  destruct Hf as (pre' & e' & Heq & _ & Hp).
  symmetry in Heq.
  destruct (failure_is_last _ _ _ _ _ Hp Heq Hr) as (-> & _ & _).
  repeat split.
  rewrite Ha. apply contextAfter_snoc, deployFailed_not_assign, He.
Qed.

Lemma report_logs_summary (w : World) (c : Z) :
  cost (args w) = Some c ->
  exists rest, trace (snd (report w)) = trace w ++ ELog (summary (args w) c) :: rest.
Proof.
  intro Hc. unfold report, displayLog, bind, getArgs. rewrite Hc.
  cbn [console_log emit args fst snd].
  destruct (config (opts (args w))).
  - destruct (gasConverts_dec
                (args (emit (ELog (Text (String.concat newline (summaryLines (args w) c)))) w)))
      as [H|H];
      [rewrite (createConfig_converts _ H) | rewrite (createConfig_overflows _ H)];
      cbn [snd emit trace]; eexists; rewrite <- ?app_assoc; reflexivity.
  - eexists; reflexivity.
Qed.

(** C6: when the sequence returns, its trace opens with the balance
    query answered [s] and closes with the one answered [e] and the
    assignment of [args.cost], with no balance query in between;
    [args.cost] is exactly [s - e], and the summary logged next shows
    [formatEther (s - e)] as the deploy cost. *)
Theorem reported_cost_is_balance_difference (w' : World) :
  runDeployment net (start o b0) = (Ok tt, w') ->
  exists s e mid rest,
    trace w'
    = EGetBalance (wallet_address o) (Some s)
        :: mid ++ [EGetBalance (wallet_address o) (Some e); EAssign (args w')]
    /\ Forall (fun ev => isBalanceQuery ev = false) mid
    /\ cost (args w') = Some (s - e)
    /\ trace (snd (action net (start o b0)))
       = trace w' ++ ELog (summary (args w') (s - e)) :: rest
    /\ nth 6 (summaryLines (args w') (s - e)) EmptyString
       = ("Deploy Cost: " ++ formatEther (s - e))%string.
Proof.
  intro Hrun.
  pose proof (runDeployment_spec net (start o b0) start_fresh) as H.
  unfold wp in H. rewrite Hrun in H. cbn [fst snd] in H.
  destruct H as [_ H].
  destruct (H eq_refl) as (s & e & w2 & Hl & ->). clear H.
  assert (Ho : opts (args w2) = o).
  { apply (emitted_opts (begun s (start o b0)) None).
    eapply emitted_mono; [apply lawful_sound | exact Hl]. }
  destruct Hl as (ext & Ht & _ & Hc & _).
  destruct (report_logs_summary
              (written (set_cost (s - e) (args w2))
                 (emit (EGetBalance (wallet_address (opts (args w2))) (Some e)) w2))
              (s - e) eq_refl) as (rest & Hrest).
  exists s, e, (ELog (Text "Deploying contracts...") :: ext), rest.
  repeat split.
  - cbn [trace written emit args]. rewrite Ht, Ho. cbn.
    rewrite <- !app_assoc. reflexivity.
  - constructor; [reflexivity|].
    apply (checked_Forall lawful _) with (a := args (begun s (start o b0)));
      [|exact Hc].
    intros a [] Hlaw; simpl in *; auto; contradiction.
  - unfold action, bind at 1. rewrite Hrun. exact Hrest.
Qed.

End Runs.

(** * The plan, the confirmations and the report *)

(** * More about every run *)

Lemma deployedKinds_logs (t logs : Trace) :
  Forall (fun e => isLog e = true) logs ->
  deployedKinds (t ++ logs) = deployedKinds t.
Proof.
  intro H. unfold deployedKinds. rewrite flat_map_app.
  replace (flat_map _ logs) with (@nil ContractKind); [apply app_nil_r|].
  induction H as [|e logs He _ IH]; [reflexivity|].
  destruct e; try discriminate. exact IH.
Qed.

Lemma bridgeCreated_logs (t logs : Trace) :
  Forall (fun e => isLog e = true) logs ->
  bridgeCreated (t ++ logs) = bridgeCreated t.
Proof.
  intro H. induction t as [|e t IH]; simpl.
  - induction H as [|e logs He _ IH]; [reflexivity|].
    destruct e; try discriminate. exact IH.
  - destruct e as [| [] | | |]; auto.
Qed.



(** Symbolic execution of the whole sequence, the flags being known. *)
Ltac wp_known_flag :=
  lazymatch goal with
  | |- wp (if ?b then _ else _) _ _ =>
      let b' := eval cbn [opts args start initArgs emit written] in b in
      match goal with
      | H : b' = _ |- _ => change b with b'; rewrite H
      end
  end; cbv beta iota.

(** The test of the local [deployed]. *)
Ltac wp_known_deployed :=
  lazymatch goal with
  | |- wp (if negb true then _ else _) _ _ => change (negb true) with false
  | |- wp (if negb false then _ else _) _ _ => change (negb false) with true
  end; cbv beta iota.

Ltac explore :=
  unfold runDeployment, deploySelected, deployBridgeContract, deployERC20Handler,
    deployGenericHandler, deployERC20, deployAssetStore;
  repeat first [wp_known_flag | wp_known_deployed | wp_step].

Ltac explored_leaf :=
  cbn; repeat split; try reflexivity; try discriminate;
  repeat constructor; cbn; intros; try discriminate; try reflexivity;
  try tauto; try assumption; try congruence;
  exfalso;
  repeat match goal with
         | H : negb (isValidAddress _) = _ |- _ =>
             progress cbn [bridgeAddress args start initArgs] in H
         end;
  match goal with
  | Hv : isValidAddress ?b = false, H : negb (isValidAddress ?b) = false |- _ =>
      rewrite Hv in H; discriminate H
  end.

Section Explored.

Context {lib : Lib}.
Variable net : Network.

Lemma runDeployment_explored (o : Options) (b0 : string) :
  wp (runDeployment net) (explored o b0) (start o b0).
Proof.
  unfold explored, recordsConfirmed, plannedKinds, selectedKinds, nothingSelected.
  destruct (all o) eqn:Ha;
    [|destruct (bridge o) eqn:Hb, (erc20Handler o) eqn:He,
        (genericHandler o) eqn:Hg, (erc20 o) eqn:Ht, (asset o) eqn:Hs];
    explore; explored_leaf.
Qed.

(** When the sequence returns, [args.cost] is assigned and the options
    are those of the invocation. *)
Lemma sequence_returns (o : Options) (b0 : string) (u : unit) (w' : World) :
  runDeployment net (start o b0) = (Ok u, w') ->
  opts (args w') = o /\ exists c, cost (args w') = Some c.
Proof.
  intro Hrun.
  pose proof (runDeployment_spec net (start o b0) (start_fresh o b0)) as H.
  unfold wp in H. rewrite Hrun in H. cbn [fst snd] in H.
  destruct H as [Hs H]. destruct u.
  destruct (H eq_refl) as (s & e & w2 & _ & ->).
  split.
  - apply (emitted_opts (start o b0) _ _ Hs).
  - eexists; reflexivity.
Qed.

Lemma report_reported (w : World) (c : Z) :
  cost (args w) = Some c -> report w = reported w c.
Proof.
  intro Hc. unfold report, reported, displayLog, bind, getArgs. rewrite Hc.
  cbn [console_log emit args fst snd opts].
  destruct (config (opts (args w))); [|reflexivity].
  unfold gasConvertsb.
  destruct (gasConverts_dec
              (args (emit (ELog (Text (String.concat newline (summaryLines (args w) c)))) w)))
    as [H|H].
  - rewrite (createConfig_converts _ H). destruct H as [Hl Hp].
    cbn [args emit] in Hl, Hp. apply Z.ltb_lt in Hl, Hp. rewrite Hl, Hp.
    reflexivity.
  - rewrite (createConfig_overflows _ H).
    destruct (Z.ltb_spec (Z.abs (gasLimit (opts (args w)))) (2 ^ 53)) as [Hl|Hl];
      [|reflexivity].
    destruct (Z.ltb_spec (Z.abs (gasPrice (opts (args w)))) (2 ^ 53)) as [Hp|Hp];
      [|reflexivity].
    exfalso. apply H. split; assumption.
Qed.

Lemma reported_logs (w : World) (c : Z) :
  args (snd (reported w c)) = args w
  /\ exists logs,
      trace (snd (reported w c)) = trace w ++ logs
      /\ Forall (fun e => isLog e = true) logs.
Proof.
  unfold reported.
  destruct (config (opts (args w))); [destruct (gasConvertsb (args w))|];
    (split; [reflexivity|]); cbn [snd emit trace];
    eexists; (split; [rewrite <- ?app_assoc; reflexivity | repeat constructor]).
Qed.

Lemma action_unfold (w : World) :
  action net w
  = match runDeployment net w with
    | (Ok _, w') => report w'
    | (Throw e, w') => (Throw e, w')
    end.
Proof. reflexivity. Qed.

(** The command after the sequence: nothing more when it throws, the
    report when it returns. *)
Lemma action_after_sequence (o : Options) (b0 : string) :
  (exists e, fst (runDeployment net (start o b0)) = Throw e
             /\ action net (start o b0) = runDeployment net (start o b0))
  \/ (exists w' c,
        runDeployment net (start o b0) = (Ok tt, w')
        /\ cost (args w') = Some c /\ opts (args w') = o
        /\ action net (start o b0) = reported w' c).
Proof.
  rewrite (action_unfold (start o b0)).
  destruct (runDeployment net (start o b0)) as [[[]|e] w'] eqn:Hrun.
  - right. destruct (sequence_returns o b0 tt w' Hrun) as (Ho & c & Hc).
    exists w', c. repeat split; auto.
    apply (report_reported w' c Hc).
  - left. exists e. split; reflexivity.
Qed.

(** The trace of the command is that of the sequence and console lines;
    [args] is that of the sequence. *)
Lemma action_adds_logs (o : Options) (b0 : string) :
  args (snd (action net (start o b0))) = args (snd (runDeployment net (start o b0)))
  /\ exists logs,
      trace (snd (action net (start o b0)))
      = trace (snd (runDeployment net (start o b0))) ++ logs
      /\ Forall (fun e => isLog e = true) logs.
Proof.
  destruct (action_after_sequence o b0) as [(e & _ & ->)|(w' & c & Hrun & _ & _ & ->)].
  - split; [reflexivity|]. exists []. rewrite app_nil_r. auto.
  - rewrite Hrun. apply reported_logs.
Qed.

End Explored.

Section MoreRuns.

Context {lib : Lib}.
Variable net : Network.
Variable o : Options.
Variable b0 : string.

(** The sequence with nothing selected. *)
Lemma nothing_selected_sequence :
  nothingSelected o ->
  runDeployment net (start o b0)
  = match net_getBalance net [] (wallet_address o) with
    | Some s =>
        (Throw NoTargetSpecified,
         {| args := initArgs o b0;
            trace := [EGetBalance (wallet_address o) (Some s);
                      ELog (Text "Deploying contracts...")] |})
    | None =>
        (Throw NetworkOrChainError,
         {| args := initArgs o b0;
            trace := [EGetBalance (wallet_address o) None] |})
    end.
Proof.
  intros (Ha & Hb & He & Hg & Ht & Hs).
  unfold runDeployment, deploySelected, bind, getArgs,
    provider_getBalance, console_log, ret, throw.
  cbn [start args trace initArgs opts fst snd].
  rewrite Ha, Hb, He, Hg, Ht, Hs.
  destruct (net_getBalance net [] (wallet_address o)); reflexivity.
Qed.

Lemma reported_status (w : World) (c : Z) :
  fst (reported w c) = Ok tt \/ fst (reported w c) = Throw NumericOverflow.
Proof.
  unfold reported.
  destruct (config (opts (args w))); [destruct (gasConvertsb (args w))|]; auto.
Qed.

(** X1: the deploys of a run are sent in the order of its plan, each
    planned kind at most once and no other kind: Bridge, ERC20Handler,
    GenericHandler, ERC20 under [--all], whatever the other flags; the
    selected kinds in the order Bridge, ERC20Handler, GenericHandler,
    ERC20, ChainAsset otherwise. *)
Theorem deploys_follow_plan :
  subsequence (deployedKinds (trace (snd (action net (start o b0)))))
              (plannedKinds o) = true.
Proof.
  destruct (action_adds_logs net o b0) as (_ & logs & -> & Hlogs).
  rewrite (deployedKinds_logs _ _ Hlogs).
  apply (runDeployment_explored net o b0).
Qed.

(** X2: the command throws [NoTargetSpecified] exactly when the
    selection is explicit and names no contract and the opening balance
    query is answered; a selected handler that is skipped for want of a
    bridge address still counts as selected. *)
Theorem no_target_iff_nothing_selected :
  fst (action net (start o b0)) = Throw NoTargetSpecified
  <-> nothingSelected o /\ net_getBalance net [] (wallet_address o) <> None.
Proof.
  split.
  - intro Hthrow.
    assert (Hseq : fst (runDeployment net (start o b0)) = Throw NoTargetSpecified).
    { destruct (action_after_sequence net o b0)
        as [(e & _ & Heq)|(w' & c & _ & _ & _ & Heq)]; rewrite Heq in Hthrow.
      - exact Hthrow.
      - destruct (reported_status w' c) as [H|H]; rewrite H in Hthrow;
          discriminate. }
    assert (Hsel : nothingSelected o).
    { apply (runDeployment_explored net o b0). rewrite Hseq. reflexivity. }
    split; [exact Hsel|].
    rewrite (nothing_selected_sequence Hsel) in Hseq.
    destruct (net_getBalance net [] (wallet_address o)); discriminate.
  - intros [Hsel Hbal].
    destruct (action_after_sequence net o b0)
      as [(e & _ & ->)|(w' & c & Hrun & _)];
      rewrite (nothing_selected_sequence Hsel) in *;
      destruct (net_getBalance net [] (wallet_address o));
      try reflexivity; try discriminate; contradiction.
Qed.

(** X3: every handler deployed in a run is constructed with the address
    of the Bridge contract created earlier in the run or, when the run
    creates none, with the [--bridgeAddress] option. *)
Theorem handlers_use_bridge_at_hand :
  Forall (handlerUses b0 (trace (snd (action net (start o b0)))))
         (trace (snd (action net (start o b0)))).
Proof.
  destruct (action_adds_logs net o b0) as (_ & logs & -> & Hlogs).
  destruct (runDeployment_explored net o b0) as (_ & _ & Huses & _).
  apply Forall_app; split.
  - eapply Forall_impl; [|exact Huses].
    intros [] He; simpl in *; auto.
    rewrite (bridgeCreated_logs _ _ Hlogs). exact He.
  - eapply Forall_impl; [|exact Hlogs].
    intros [] He; simpl in *; auto; discriminate.
Qed.


(** X5: when the fee is no decimal that [parseEther] accepts and the
    Bridge contract is to be deployed, the command throws before any
    deploy is sent, also for the contracts that take no fee. *)
Theorem invalid_fee_stops_before_deploy (s : Z) :
  all o = true \/ (all o = false /\ bridge o = true) ->
  parseEther (toString (fee o)) = None ->
  net_getBalance net [] (wallet_address o) = Some s ->
  action net (start o b0)
  = (Throw InvalidDecimal,
     {| args := initArgs o b0;
        trace := [EGetBalance (wallet_address o) (Some s);
                  ELog (Text "Deploying contracts...")] |}).
Proof.
  intros Hsel Hfee Hbal.
  unfold action, runDeployment, deploySelected, deployBridgeContract,
    ethers_parseEther, bind, getArgs, provider_getBalance, console_log, ret, throw.
  cbn [start args trace initArgs opts fst snd].
  rewrite Hbal. cbn [emit args trace opts initArgs].
  destruct Hsel as [Ha|[Ha Hb]]; rewrite Ha; [|rewrite Hb];
    cbn [fst snd args emit opts initArgs start]; rewrite Hfee; reflexivity.
Qed.

(** X6: the report follows the sequence: when the sequence throws, the
    command ends there with no cost assigned and logs neither summary
    nor configuration, whatever was deployed; when it returns, the
    summary is logged, and after it the configuration header and
    document when [--config] is set and both gas settings convert, while
    [NumericOverflow] is thrown when it is set and one does not.  The
    report never assigns to [args]. *)
Theorem report_follows_sequence :
  match runDeployment net (start o b0) with
  | (Throw e, w') =>
      action net (start o b0) = (Throw e, w') /\ cost (args w') = None
  | (Ok _, w') =>
      opts (args w') = o
      /\ exists c,
          cost (args w') = Some c
          /\ action net (start o b0) = reported w' c
          /\ args (snd (action net (start o b0))) = args w'
  end.
Proof.
  pose proof (runDeployment_explored net o b0) as Hexp.
  destruct (action_after_sequence net o b0)
    as [(e & He & Heq)|(w' & c & Hrun & Hc & Ho & Heq)].
  - rewrite Heq. unfold wp in Hexp.
    destruct (runDeployment net (start o b0)) as [[u|e'] w'];
      [discriminate|].
    split; [reflexivity|]. apply Hexp. discriminate.
  - rewrite Hrun. split; [exact Ho|]. exists c.
    repeat split; auto. rewrite Heq. apply reported_logs.
Qed.

(** X7: the errors of the command and what each one tells:
    [NoTargetSpecified] an explicit selection that names no contract,
    [InvalidDecimal] a fee that [parseEther] rejects with the Bridge
    contract in the plan, [NumericOverflow] a sequence that returned
    with [--config] set and a gas setting that [toNumber] does not
    convert, [NetworkOrChainError] a rejected call as last event; the
    summary never fails on the cost. *)
Theorem errors_tell_their_cause (e : Error) :
  fst (action net (start o b0)) = Throw e ->
  match e with
  | NoTargetSpecified => nothingSelected o
  | InvalidDecimal =>
      In Bridge (plannedKinds o) /\ parseEther (toString (fee o)) = None
  | NumericOverflow =>
      fst (runDeployment net (start o b0)) = Ok tt
      /\ config o = true
      /\ ~ (Z.abs (gasLimit o) < 2 ^ 53 /\ Z.abs (gasPrice o) < 2 ^ 53)
  | NetworkOrChainError =>
      exists pre ev,
        trace (snd (action net (start o b0))) = pre ++ [ev]
        /\ rpcFailed ev = true
  | InvalidBigNumber => False
  end.
Proof.
  intro Hthrow.
  destruct (run_sound net o b0) as (_ & _ & Hstop).
  rewrite Hthrow in Hstop. cbn [status] in Hstop.
  destruct (runDeployment_explored net o b0)
    as (_ & Hnone & _ & _ & _ & Hfee & (Hover & Hbig) & _).
  destruct (action_after_sequence net o b0)
    as [(e' & He' & Heq)|(w' & c & Hrun & _ & Ho & Heq)].
  - rewrite Heq in Hthrow. rewrite Hthrow in Hnone, Hfee, Hover, Hbig.
    cbn [status] in *.
    destruct e; auto; try congruence.
    destruct Hstop as (pre & ev & Ht & Hev & _). eauto.
  - rewrite Heq in Hthrow. unfold reported in Hthrow. rewrite Ho in Hthrow.
    destruct (config o) eqn:Hc; [|discriminate].
    destruct (gasConvertsb w'.(args)) eqn:Hg; [discriminate|].
    injection Hthrow as <-.
    split; [rewrite Hrun; reflexivity|]. split; [reflexivity|].
    intros [Hl Hp]. unfold gasConvertsb in Hg. rewrite Ho in Hg.
    apply Z.ltb_lt in Hl, Hp. rewrite Hl, Hp in Hg. discriminate.
Qed.

(** X8: a rejected call is never swallowed and nothing else is
    reported as a network error: the command throws
    [NetworkOrChainError] exactly when a balance query, a deploy or a
    confirmation of its trace was rejected. *)
Theorem network_error_iff_rejected_call :
  fst (action net (start o b0)) = Throw NetworkOrChainError
  <-> existsb rpcFailed (trace (snd (action net (start o b0)))) = true.
Proof.
  destruct (run_sound net o b0) as (_ & _ & Hstop).
  split.
  - intro Hthrow. rewrite Hthrow in Hstop.
    destruct Hstop as (pre & ev & -> & Hev & _).
    rewrite existsb_app. cbn. rewrite Hev. now rewrite orb_true_r.
  - intro Hex. apply existsb_exists in Hex. destruct Hex as (ev & Hin & Hev).
    destruct (fst (action net (start o b0))) as [u|[]]; cbn [status failStop] in Hstop;
      try reflexivity;
      (rewrite Forall_forall in Hstop; specialize (Hstop ev Hin);
       unfold notFailed in Hstop; congruence).
Qed.

End MoreRuns.

Section Reports.

Context {lib : Lib}.
Variable net : Network.
Variable o : Options.
Variable b0 : string.





End Reports.

Lemma confirmed_needs_deploy (k : ContractKind) (t : Trace) :
  isHandler k = true -> filter isHandlerDeploy t = [] -> confirmed k t = None.
Proof.
  intros Hk. induction t as [|e t IH]; intro H; [reflexivity|].
  simpl in H. destruct (isHandlerDeploy e) eqn:He; [discriminate|].
  specialize (IH H).
  destruct e as [| k' ctor gp gl [c|] | | |]; simpl; try exact IH.
  destruct t as [|e' t]; [reflexivity|].
  destruct e' as [| | a [] | |]; try exact IH.
  destruct (kindEqb k k') eqn:Hkk; [|exact IH].
  simpl in He. destruct k, k'; simpl in *; discriminate.
Qed.

Lemma filter_handler_logs (t logs : Trace) :
  Forall (fun e => isLog e = true) logs ->
  filter isHandlerDeploy (t ++ logs) = filter isHandlerDeploy t.
Proof.
  intro H. rewrite filter_app.
  replace (filter isHandlerDeploy logs) with (@nil Event); [apply app_nil_r|].
  induction H as [|e logs He _ IH]; [reflexivity|].
  destruct e; try discriminate. exact IH.
Qed.

(** Symbolic execution on an endpoint that answers every call. *)
Ltac wp_answered Hbal Hdep Hmined :=
  lazymatch goal with
  | |- wp (provider_getBalance _ _) _ _ =>
      apply wp_getBalance;
      [intros ? ?|let H := fresh in intro H; destruct (Hbal _ _ H)]
  | |- wp (factory_deploy _ ?k ?c ?gp ?gl) _ ?w =>
      let a := fresh "c" in
      let H := fresh "H" in
      let Hv := fresh "Hv" in
      apply wp_factory_deploy;
      [intros a H; destruct (Hdep (trace w) k c gp gl) as (? & Hv & ?);
       rewrite H in Hv; injection Hv as <-; clear H
      |intro H; destruct (Hdep (trace w) k c gp gl) as (? & Hv & ?);
       rewrite H in Hv; discriminate Hv]
  | |- wp (contract_deployed _ _) _ _ =>
      let H := fresh "H" in
      apply wp_contract_deployed;
      [intros _|intro H; rewrite Hmined in H; discriminate H]
  | |- wp (ethers_parseEther _) _ _ =>
      let H := fresh "H" in
      apply wp_parseEther;
      [intros ? _|intro H; cbn [opts args start initArgs emit written] in H;
                  contradiction]
  | |- wp (if negb (isValidAddress ?x) then _ else _) _ _ =>
      let x' := eval cbn [opts args start initArgs emit written bridgeAddress
                          set_bridgeAddress set_erc20HandlerContract
                          set_genericHandlerContract set_erc20Contract
                          set_ChainAssetContract set_cost] in x in
      change x with x';
      match goal with
      | H : isValidAddress x' = _ |- _ => rewrite H
      end; cbn [negb]
  end; cbv beta iota.

Section Reliable.

Context {lib : Lib}.
Variable net : Network.
Variable o : Options.
Variable b0 : string.

(** X11: on an endpoint that answers every call, a run whose plan is not
    empty returns after deploying and confirming exactly the planned
    kinds, in order, except the handlers when no bridge address is at
    hand (no Bridge contract in the plan and a [--bridgeAddress] that is
    no valid address): such a handler is skipped with its diagnostic and
    the rest of the plan is still deployed.  The fee has to parse only
    when the Bridge contract is planned. *)
Theorem answered_run_deploys_expected :
  reliable net ->
  (In Bridge (plannedKinds o) -> parseEther (toString (fee o)) <> None) ->
  plannedKinds o <> [] ->
  fst (runDeployment net (start o b0)) = Ok tt
  /\ deployedKinds (trace (snd (runDeployment net (start o b0))))
     = expectedKinds o b0
  /\ forallb (fun k => isSome (confirmed k (trace (snd (runDeployment net (start o b0))))))
             (expectedKinds o b0) = true
  /\ logged (textOf erc20HandlerDiagnostic)
            (trace (snd (runDeployment net (start o b0))))
     = existsb (kindEqb Erc20Handler) (plannedKinds o)
       && negb (bridgeAvailable o b0)
  /\ logged (textOf genericHandlerDiagnostic)
            (trace (snd (runDeployment net (start o b0))))
     = existsb (kindEqb GenericHandler) (plannedKinds o)
       && negb (bridgeAvailable o b0).
Proof.
  intros (Hbal & Hdep & Hmined) Hfee Hplan.
  change (wp (runDeployment net)
             (fun r w' =>
                r = Ok tt
                /\ deployedKinds (trace w') = expectedKinds o b0
                /\ forallb (fun k => isSome (confirmed k (trace w')))
                           (expectedKinds o b0) = true
                /\ logged (textOf erc20HandlerDiagnostic) (trace w')
                   = existsb (kindEqb Erc20Handler) (plannedKinds o)
                     && negb (bridgeAvailable o b0)
                /\ logged (textOf genericHandlerDiagnostic) (trace w')
                   = existsb (kindEqb GenericHandler) (plannedKinds o)
                     && negb (bridgeAvailable o b0))
             (start o b0)).
  unfold expectedKinds, bridgeAvailable, plannedKinds, selectedKinds in *.
  destruct (isValidAddress b0) eqn:Hb0;
    (destruct (all o) eqn:Ha;
     [|destruct (bridge o) eqn:Hb, (erc20Handler o) eqn:He,
         (genericHandler o) eqn:Hg, (erc20 o) eqn:Ht, (asset o) eqn:Hs]);
    try (exfalso; apply Hplan; reflexivity);
    try (assert (Hparse : parseEther (toString (fee o)) <> None)
          by (apply Hfee; simpl; auto));
    clear Hfee Hplan;
    unfold runDeployment, deploySelected, deployBridgeContract, deployERC20Handler,
      deployGenericHandler, deployERC20, deployAssetStore;
    repeat first [wp_known_flag | wp_known_deployed
                 | wp_answered Hbal Hdep Hmined | wp_step];
    cbn; repeat split; reflexivity.
Qed.

(** X12: without a Bridge contract in the plan and with a
    [--bridgeAddress] that is no valid address, no run deploys a
    handler, whatever else is selected and whatever the endpoint
    answers, and both handler addresses stay undefined. *)
Theorem no_bridge_no_handler :
  all o = false -> bridge o = false -> isValidAddress b0 = false ->
  filter isHandlerDeploy (trace (snd (action net (start o b0)))) = []
  /\ erc20HandlerContract (args (snd (action net (start o b0)))) = None
  /\ genericHandlerContract (args (snd (action net (start o b0)))) = None.
Proof.
  intros Ha Hb Hv.
  destruct (action_adds_logs net o b0) as (Hargs & logs & Ht & Hlogs).
  destruct (runDeployment_explored net o b0)
    as (_ & _ & _ & (_ & He & Hg & _) & Hnone & _).
  specialize (Hnone Ha Hb Hv).
  rewrite Hargs, Ht, (filter_handler_logs _ _ Hlogs), He, Hg.
  repeat split; [exact Hnone | |]; apply confirmed_needs_deploy; auto.
Qed.

End Reliable.



Section Announced.

Context {lib : Lib}.
Variable net : Network.
Variable o : Options.
Variable b0 : string.



End Announced.

(** * Sample runs *)

Module SampleFacts.

Import Reference.

Lemma steady_answersBalance : answersBalance steady.
Proof. intros t address; discriminate. Qed.

Lemma steady_reliable : reliable (lib := lib) steady.
Proof.
  split; [exact steady_answersBalance|]. split.
  - intros t kind ctor gp gl. exists (addressOf kind).
    split; [reflexivity | destruct kind; reflexivity].
  - reflexivity.
Qed.

End SampleFacts.

(** From here on the imported helpers are those of [Reference]. *)
#[local] Existing Instance Reference.lib.

(** C1 as stated fails: with no contract selected the command has
    already queried the balance when it throws. *)
Lemma nothing_selected_queries_balance :
  nothingSelected Samples.noFlags
  /\ fst (Samples.sequence Reference.steady Samples.noFlags) = Throw NoTargetSpecified
  /\ networkCalls (trace (snd (Samples.sequence Reference.steady Samples.noFlags)))
     = [EGetBalance (wallet_address Samples.noFlags) (Some (10 ^ 18))]
  /\ networkCalls (trace (snd (Samples.sequence Reference.steady Samples.noFlags)))
     <> [].
Proof.
  repeat split; try reflexivity. vm_compute. discriminate.
Qed.

(** The amended C1 on the command line [deploy] with no flag. *)
Lemma nothing_selected_one_balance_query_witness :
  nothingSelected Samples.noFlags
  /\ (networkCalls (trace (snd (Samples.sequence Reference.steady Samples.noFlags)))
      = [EGetBalance (wallet_address Samples.noFlags)
           (net_getBalance Reference.steady [] (wallet_address Samples.noFlags))]
      /\ fst (Samples.sequence Reference.steady Samples.noFlags)
         = Throw NoTargetSpecified
      /\ args (snd (Samples.sequence Reference.steady Samples.noFlags))
         = initArgs Samples.noFlags EmptyString
      /\ Samples.run Reference.steady Samples.noFlags
         = Samples.sequence Reference.steady Samples.noFlags).
Proof.
  assert (H : nothingSelected Samples.noFlags) by (repeat split).
  split; [exact H|].
  exact (nothing_selected_one_balance_query (lib := Reference.lib)
           Reference.steady Samples.noFlags EmptyString H).
Defined.

(** C2 as stated fails: under [--all], when the creation of the
    GenericHandler is never mined, three deploys are sent, the run ends
    with [NetworkOrChainError] and the ERC20 contract is never deployed. *)
Lemma all_stops_when_unmined :
  all Samples.allFlag = true
  /\ fst (Samples.sequence (Reference.unmined GenericHandler) Samples.allFlag)
     = Throw NetworkOrChainError
  /\ deployedKinds
       (trace (snd (Samples.sequence (Reference.unmined GenericHandler) Samples.allFlag)))
     = [Bridge; Erc20Handler; GenericHandler]
  /\ erc20Contract
       (args (snd (Samples.sequence (Reference.unmined GenericHandler) Samples.allFlag)))
     = None
  /\ deployedKinds
       (trace (snd (Samples.sequence (Reference.unmined GenericHandler) Samples.allFlag)))
     <> orderOfAll.
Proof.
  repeat split; try reflexivity. vm_compute. discriminate.
Qed.

(** The amended C2 on [deploy --all] with the default fee, on the steady endpoint. *)
Lemma all_deploys_four_in_order_witness :
  all Samples.allFlag = true
  /\ parseEther (toString (fee Samples.allFlag)) = Some 0
  /\ reliable Reference.steady
  /\ (subsequence
        (deployedKinds (trace (snd (Samples.sequence Reference.steady Samples.allFlag))))
        orderOfAll = true
      /\ Forall
           (handlerWired (trace (snd (Samples.sequence Reference.steady Samples.allFlag))))
           (trace (snd (Samples.sequence Reference.steady Samples.allFlag))))
  /\ exists b h g c s e,
      let a1 := set_bridgeAddress b (initArgs Samples.allFlag EmptyString) in
      let a2 := set_erc20HandlerContract h a1 in
      let a3 := set_genericHandlerContract g a2 in
      let a4 := set_erc20Contract c a3 in
      let r := Samples.sequence Reference.steady Samples.allFlag in
      fst r = Ok tt
      /\ args (snd r) = set_cost (s - e) a4
      /\ steps (trace (snd r))
         = [ EDeploy Bridge
               [Scalar (chainId Samples.allFlag); Arr (relayers Samples.allFlag);
                Scalar (relayerThreshold Samples.allFlag); Big 0;
                Scalar (expiry Samples.allFlag)]
               (gasPrice Samples.allFlag) (gasLimit Samples.allFlag) (Some b);
             EAssign a1;
             EDeploy Erc20Handler [Scalar (Str b); Arr []; Arr []; Arr []]
               (gasPrice Samples.allFlag) (gasLimit Samples.allFlag) (Some h);
             EAssign a2;
             EDeploy GenericHandler
               [Scalar (Str b); Arr []; Arr []; Arr []; Arr []]
               (gasPrice Samples.allFlag) (gasLimit Samples.allFlag) (Some g);
             EAssign a3;
             EDeploy Erc20Mintable
               [Scalar (Str (erc20Name Samples.allFlag));
                Scalar (Str (erc20Symbol Samples.allFlag));
                Scalar (erc20Decimals Samples.allFlag)]
               (gasPrice Samples.allFlag) (gasLimit Samples.allFlag) (Some c);
             EAssign a4;
             EAssign (set_cost (s - e) a4) ].
Proof.
  assert (H1 : all Samples.allFlag = true) by reflexivity.
  assert (H2 : parseEther (toString (fee Samples.allFlag)) = Some 0)
    by reflexivity.
  split; [exact H1|]. split; [exact H2|].
  split; [exact SampleFacts.steady_reliable|].
  destruct (all_deploys_four_in_order Reference.steady Samples.allFlag EmptyString H1)
    as [Horder Hfour].
  split; [exact Horder|].
  exact (Hfour 0 H2 SampleFacts.steady_reliable).
Defined.

(** C3 at the point of [deploy --all] where the GenericHandler is about
    to be deployed. *)
Lemma handler_address_needs_valid_bridge_witness :
  let t := trace (snd (Samples.run Reference.steady Samples.allFlag)) in
  let a0 := initArgs Samples.allFlag EmptyString in
  t = firstn 10 t ++ skipn 10 t
  /\ (handlerInv (contextAfter a0 (firstn 10 t))
      /\ (forall kind ctor gp gl answer rest,
            skipn 10 t = EDeploy kind ctor gp gl answer :: rest ->
            isHandler kind = true ->
            isValidAddress (bridgeAddress (contextAfter a0 (firstn 10 t))) = true)).
Proof.
  cbv zeta.
  assert (H : trace (snd (Samples.run Reference.steady Samples.allFlag))
              = firstn 10 (trace (snd (Samples.run Reference.steady Samples.allFlag)))
                ++ skipn 10 (trace (snd (Samples.run Reference.steady Samples.allFlag))))
    by (symmetry; apply firstn_skipn).
  split; [exact H|].
  exact (handler_address_needs_valid_bridge (lib := Reference.lib) Reference.steady
           Samples.allFlag EmptyString _ _ H).
Defined.

(** C4 as stated fails: with only [--erc20Handler] selected and no
    bridge address, on an endpoint that rejects the balance query the
    command throws, and before the diagnostic is logged. *)
Lemma erc20Handler_skip_after_balance_query :
  all Samples.onlyErc20Handler = false
  /\ bridge Samples.onlyErc20Handler = false
  /\ erc20Handler Samples.onlyErc20Handler = true
  /\ genericHandler Samples.onlyErc20Handler = false
  /\ erc20 Samples.onlyErc20Handler = false
  /\ asset Samples.onlyErc20Handler = false
  /\ isValidAddress EmptyString = false
  /\ Samples.sequence Reference.offline Samples.onlyErc20Handler
     = (Throw NetworkOrChainError,
        {| args := initArgs Samples.onlyErc20Handler EmptyString;
           trace := [EGetBalance (wallet_address Samples.onlyErc20Handler) None] |})
  /\ fst (Samples.sequence Reference.offline Samples.onlyErc20Handler) <> Ok tt.
Proof.
  repeat split; try reflexivity. vm_compute. discriminate.
Qed.

(** The amended C4 on [deploy --erc20Handler] with no [--bridgeAddress]. *)
Lemma erc20Handler_skipped_without_bridge_witness :
  all Samples.onlyErc20Handler = false
  /\ bridge Samples.onlyErc20Handler = false
  /\ erc20Handler Samples.onlyErc20Handler = true
  /\ genericHandler Samples.onlyErc20Handler = false
  /\ erc20 Samples.onlyErc20Handler = false
  /\ asset Samples.onlyErc20Handler = false
  /\ isValidAddress EmptyString = false
  /\ answersBalance Reference.steady
  /\ (filter isDeploy
        (trace (snd (Samples.sequence Reference.steady Samples.onlyErc20Handler))) = []
      /\ erc20HandlerContract
           (args (snd (Samples.sequence Reference.steady Samples.onlyErc20Handler)))
         = None
      /\ fst (Samples.sequence Reference.steady Samples.onlyErc20Handler) = Ok tt)
  /\ exists s e,
      Samples.sequence Reference.steady Samples.onlyErc20Handler
      = (Ok tt,
         {| args := set_cost (s - e) (initArgs Samples.onlyErc20Handler EmptyString);
            trace := [ EGetBalance (wallet_address Samples.onlyErc20Handler) (Some s);
                       ELog (Text "Deploying contracts...");
                       ELog erc20HandlerDiagnostic;
                       EGetBalance (wallet_address Samples.onlyErc20Handler) (Some e);
                       EAssign (set_cost (s - e)
                                  (initArgs Samples.onlyErc20Handler EmptyString)) ] |}).
Proof.
  do 7 (split; [reflexivity|]).
  split; [exact SampleFacts.steady_answersBalance|].
  assert (Hv : isValidAddress EmptyString = false) by reflexivity.
  destruct (erc20Handler_skipped_without_bridge Reference.steady
              Samples.onlyErc20Handler EmptyString
              eq_refl eq_refl eq_refl eq_refl eq_refl eq_refl Hv)
    as [(Hnone & Hunset & _) Hends].
  split; [split; [exact Hnone|]; split; [exact Hunset|reflexivity]|].
  exact (Hends SampleFacts.steady_answersBalance).
Defined.

(** C5 at the ERC20Handler deployment of [deploy --all]. *)
Lemma constructor_arguments_follow_table_witness :
  let t := trace (snd (Samples.run Reference.steady Samples.allFlag)) in
  let b := Reference.addressOf Bridge in
  let ctor := [Scalar (Str b); Arr []; Arr []; Arr []] in
  let answer := Some (Reference.addressOf Erc20Handler) in
  t = firstn 6 t ++ EDeploy Erc20Handler ctor 20000000 8000000 answer :: skipn 7 t
  /\ (tableRow Samples.allFlag
        (bridgeAddress (contextAfter (initArgs Samples.allFlag EmptyString) (firstn 6 t)))
        Erc20Handler ctor
      /\ 20000000 = gasPrice Samples.allFlag
      /\ 8000000 = gasLimit Samples.allFlag).
Proof.
  cbv zeta.
  assert (H : trace (snd (Samples.run Reference.steady Samples.allFlag))
              = firstn 6 (trace (snd (Samples.run Reference.steady Samples.allFlag)))
                ++ EDeploy Erc20Handler
                     [Scalar (Str (Reference.addressOf Bridge)); Arr []; Arr []; Arr []]
                     20000000 8000000 (Some (Reference.addressOf Erc20Handler))
                   :: skipn 7 (trace (snd (Samples.run Reference.steady Samples.allFlag))))
    by (vm_compute; reflexivity).
  split; [exact H|].
  exact (constructor_arguments_follow_table Reference.steady Samples.allFlag
           EmptyString _ _ _ _ _ _ _ H).
Defined.

(** C6 on [deploy --all]: four creations at 21000 wei each. *)
Lemma reported_cost_is_balance_difference_witness :
  let w' := snd (Samples.sequence Reference.steady Samples.allFlag) in
  Samples.sequence Reference.steady Samples.allFlag = (Ok tt, w')
  /\ exists s e mid rest,
      trace w'
      = EGetBalance (wallet_address Samples.allFlag) (Some s)
          :: mid ++ [EGetBalance (wallet_address Samples.allFlag) (Some e);
                     EAssign (args w')]
      /\ Forall (fun ev => isBalanceQuery ev = false) mid
      /\ cost (args w') = Some (s - e)
      /\ trace (snd (Samples.run Reference.steady Samples.allFlag))
         = trace w' ++ ELog (summary (args w') (s - e)) :: rest
      /\ nth 6 (summaryLines (args w') (s - e)) EmptyString
         = ("Deploy Cost: " ++ formatEther (s - e))%string.
Proof.
  cbv zeta.
  assert (H : Samples.sequence Reference.steady Samples.allFlag
              = (Ok tt, snd (Samples.sequence Reference.steady Samples.allFlag)))
    by (vm_compute; reflexivity).
  split; [exact H|].
  exact (reported_cost_is_balance_difference Reference.steady Samples.allFlag
           EmptyString _ H).
Defined.

(** C7 on [deploy --all] when the GenericHandler creation is never
    mined. *)
Lemma rejected_deploy_ends_run_witness :
  let r := Samples.run (Reference.unmined GenericHandler) Samples.allFlag in
  let e := EDeployed (Reference.addressOf GenericHandler) false in
  trace (snd r) = removelast (trace (snd r)) ++ e :: []
  /\ deployFailed e = true
  /\ ([] = @nil Event
      /\ fst r = Throw NetworkOrChainError
      /\ args (snd r)
         = contextAfter (initArgs Samples.allFlag EmptyString)
             (removelast (trace (snd r)))).
Proof.
  cbv zeta.
  assert (H : trace (snd (Samples.run (Reference.unmined GenericHandler) Samples.allFlag))
              = removelast
                  (trace (snd (Samples.run (Reference.unmined GenericHandler)
                                 Samples.allFlag)))
                ++ EDeployed (Reference.addressOf GenericHandler) false :: [])
    by (vm_compute; reflexivity).
  split; [exact H|]. split; [reflexivity|].
  exact (rejected_deploy_ends_run (Reference.unmined GenericHandler) Samples.allFlag
           EmptyString _ _ _ H eq_refl).
Defined.

(** C8 on the default options with a cost of zero. *)
Lemma displayLog_nothing_deployed_witness :
  let w := {| args := set_cost 0 (initArgs Reference.defaults EmptyString);
              trace := [] |} in
  cost (args w) = Some 0
  /\ bridgeAddress (args w) = EmptyString
  /\ erc20HandlerContract (args w) = None
  /\ genericHandlerContract (args w) = None
  /\ erc20Contract (args w) = None
  /\ ChainAssetContract (args w) = None
  /\ (displayLog w
      = (Ok tt, emit (ELog (Text (String.concat newline (summaryLines (args w) 0)))) w)
      /\ skipn 18 (summaryLines (args w) 0) = nothingDeployed).
Proof.
  cbv zeta. do 6 (split; [reflexivity|]).
  exact (displayLog_nothing_deployed
           {| args := set_cost 0 (initArgs Reference.defaults EmptyString);
              trace := [] |} 0
           eq_refl eq_refl eq_refl eq_refl eq_refl eq_refl).
Defined.

(** C10: [createConfig] is not total.  Under [--all --config] with a gas
    limit of 2^53, one more than the largest safe integer, the four
    deployments are sent with that gas limit and confirmed and the
    summary is logged, and then [toNumber] throws: the command ends with
    [NumericOverflow] and no configuration document is logged. *)
Theorem createConfig_not_total :
  exists (o : Options) (w' : World),
    config o = true
    /\ gasLimit o = 2 ^ 53 - 1 + 1
    /\ Samples.sequence Reference.steady o = (Ok tt, w')
    /\ map (fun e => match e with
                     | EDeploy kind _ _ gl (Some _) => Some (kind, gl)
                     | _ => None
                     end) (filter isDeploy (trace w'))
       = [Some (Bridge, gasLimit o); Some (Erc20Handler, gasLimit o);
          Some (GenericHandler, gasLimit o); Some (Erc20Mintable, gasLimit o)]
    /\ createConfig (emit (ELog (summary (args w') 84000)) w')
       = (Throw NumericOverflow, emit (ELog (summary (args w') 84000)) w')
    /\ Samples.run Reference.steady o
       = (Throw NumericOverflow, emit (ELog (summary (args w') 84000)) w')
    /\ filter isDocument (trace (snd (Samples.run Reference.steady o))) = [].
Proof.
  exists Samples.heavy, (snd (Samples.sequence Reference.steady Samples.heavy)).
  split; [reflexivity|]. split; [reflexivity|].
  split; [vm_compute; reflexivity|]. split; [vm_compute; reflexivity|].
  split.
  - apply createConfig_overflows. intros [H _]. vm_compute in H. discriminate.
  - split; vm_compute; reflexivity.
Qed.

(** A fee that is no decimal stops [deploy --all] after the balance
    query. *)
Lemma invalid_fee_stops_before_deploy_witness :
  (all Selections.unparsableFee = true
   \/ (all Selections.unparsableFee = false /\ bridge Selections.unparsableFee = true))
  /\ parseEther (toString (fee Selections.unparsableFee)) = None
  /\ net_getBalance Reference.steady [] (wallet_address Selections.unparsableFee)
     = Some (10 ^ 18)
  /\ Samples.run Reference.steady Selections.unparsableFee
     = (Throw InvalidDecimal,
        {| args := initArgs Selections.unparsableFee EmptyString;
           trace := [EGetBalance (wallet_address Selections.unparsableFee)
                                 (Some (10 ^ 18));
                     ELog (Text "Deploying contracts...")] |}).
Proof.
  assert (H1 : all Selections.unparsableFee = true
               \/ (all Selections.unparsableFee = false
                   /\ bridge Selections.unparsableFee = true))
    by (left; reflexivity).
  assert (H2 : parseEther (toString (fee Selections.unparsableFee)) = None)
    by reflexivity.
  assert (H3 : net_getBalance Reference.steady []
                 (wallet_address Selections.unparsableFee) = Some (10 ^ 18))
    by reflexivity.
  split; [exact H1|]. split; [exact H2|]. split; [exact H3|].
  exact (invalid_fee_stops_before_deploy Reference.steady Selections.unparsableFee
           EmptyString (10 ^ 18) H1 H2 H3).
Defined.

(** [deploy --all --config] with a gas limit of 2^53 throws
    [NumericOverflow], after a sequence that returned. *)
Lemma errors_tell_their_cause_witness :
  fst (Samples.run Reference.steady Samples.heavy) = Throw NumericOverflow
  /\ fst (Samples.sequence Reference.steady Samples.heavy) = Ok tt
  /\ config Samples.heavy = true
  /\ ~ (Z.abs (gasLimit Samples.heavy) < 2 ^ 53
        /\ Z.abs (gasPrice Samples.heavy) < 2 ^ 53).
Proof.
  assert (H : fst (Samples.run Reference.steady Samples.heavy) = Throw NumericOverflow)
    by (vm_compute; reflexivity).
  split; [exact H|].
  exact (errors_tell_their_cause Reference.steady Samples.heavy EmptyString
           NumericOverflow H).
Defined.



(** [deploy --erc20Handler --erc20] on [steady]: the handler is skipped
    with its diagnostic, the token is deployed. *)
Lemma answered_run_deploys_expected_witness :
  reliable Reference.steady
  /\ (In Bridge (plannedKinds Selections.handlerAndToken) ->
      parseEther (toString (fee Selections.handlerAndToken)) <> None)
  /\ plannedKinds Selections.handlerAndToken <> []
  /\ expectedKinds Selections.handlerAndToken EmptyString = [Erc20Mintable]
  /\ fst (Samples.sequence Reference.steady Selections.handlerAndToken) = Ok tt
  /\ deployedKinds
       (trace (snd (Samples.sequence Reference.steady Selections.handlerAndToken)))
     = expectedKinds Selections.handlerAndToken EmptyString
  /\ forallb
       (fun k =>
          isSome
            (confirmed k
               (trace (snd (Samples.sequence Reference.steady
                              Selections.handlerAndToken)))))
       (expectedKinds Selections.handlerAndToken EmptyString) = true
  /\ logged (textOf erc20HandlerDiagnostic)
            (trace (snd (Samples.sequence Reference.steady Selections.handlerAndToken)))
     = existsb (kindEqb Erc20Handler) (plannedKinds Selections.handlerAndToken)
       && negb (bridgeAvailable Selections.handlerAndToken EmptyString)
  /\ logged (textOf genericHandlerDiagnostic)
            (trace (snd (Samples.sequence Reference.steady Selections.handlerAndToken)))
     = existsb (kindEqb GenericHandler) (plannedKinds Selections.handlerAndToken)
       && negb (bridgeAvailable Selections.handlerAndToken EmptyString).
Proof.
  assert (H1 : In Bridge (plannedKinds Selections.handlerAndToken) ->
               parseEther (toString (fee Selections.handlerAndToken)) <> None)
    by (intros _; discriminate).
  assert (H2 : plannedKinds Selections.handlerAndToken <> []) by discriminate.
  split; [exact SampleFacts.steady_reliable|].
  split; [exact H1|]. split; [exact H2|]. split; [reflexivity|].
  exact (answered_run_deploys_expected Reference.steady Selections.handlerAndToken
           EmptyString SampleFacts.steady_reliable H1 H2).
Defined.

(** [deploy --erc20Handler] with no bridge address deploys no handler. *)
Lemma no_bridge_no_handler_witness :
  all Samples.onlyErc20Handler = false
  /\ bridge Samples.onlyErc20Handler = false
  /\ isValidAddress EmptyString = false
  /\ filter isHandlerDeploy
       (trace (snd (Samples.run Reference.steady Samples.onlyErc20Handler))) = []
  /\ erc20HandlerContract
       (args (snd (Samples.run Reference.steady Samples.onlyErc20Handler))) = None
  /\ genericHandlerContract
       (args (snd (Samples.run Reference.steady Samples.onlyErc20Handler))) = None.
Proof.
  assert (H1 : all Samples.onlyErc20Handler = false) by reflexivity.
  assert (H2 : bridge Samples.onlyErc20Handler = false) by reflexivity.
  assert (H3 : isValidAddress EmptyString = false) by reflexivity.
  split; [exact H1|]. split; [exact H2|]. split; [exact H3|].
  exact (no_bridge_no_handler Reference.steady Samples.onlyErc20Handler EmptyString
           H1 H2 H3).
Defined.
